(** * Space-Bus: the tiny485 transceiver and the sbp frame protocol

    A shallow embedding of [lib/tiny485/tiny485.c] (the ATtiny85 bit-level
    transceiver) and of [scratch/tinyhack/sbp.c] (the frame protocol state
    machine), with the properties of the design document stated over them.

    Conventions.  C's [uint8_t] and [uint16_t] are integers in [Z]; every
    store into such an object is written with its wrap-around ([u8], [u16]).
    Hardware registers are fields of a record.  The calls an interrupt
    handler makes into the layer above ([sync_received], [byte_received],
    [byte_sent]), whose bodies are not part of these two files, are recorded
    as a trace of events in the order the handler makes them. *)

From Stdlib Require Import ZArith List Lia Bool.
Import ListNotations.
Local Open Scope Z_scope.

(** ** Fixed-width integers *)

(** Conversion to [uint8_t]. *)
Definition u8 (x : Z) : Z := x mod 256.

(** Conversion to [uint16_t]. *)
Definition u16 (x : Z) : Z := x mod 65536.

(** avr-libc's [_BV(bit)] is [(1 << (bit))]. *)
Definition _BV (bit : Z) : Z := Z.shiftl 1 bit.

Definition is_u8 (x : Z) : Prop := 0 <= x < 256.

(** The 256 values of a [uint8_t], for properties checked value by value. *)
Definition all_bytes : list Z := map Z.of_nat (seq 0 256).

Module Tiny485.

(** *** Constants of tiny485.c *)

Definition T485_BIT_TIMER : Z := 104.
Definition T485_RECV_SEED : Z := 0x07.
Definition T485_XMIT_SEED : Z := 0x0B.
Definition T485_INIT1 : Z := 0x7F.
Definition T485_INIT2 : Z := 0xC0.
Definition T485_SYNC_BYTE : Z := 0xFF.
Definition T485_ESCAPE_BYTE : Z := 0x55.
Definition T485_ESCAPED_SYNC : Z := 0x00.
Definition T485_ESCAPED_ESCAPE : Z := 0x01.
Definition T485_FLAG_ESCAPE : Z := 0x01.

(** *** bit_reverse

    [for(i=0; i<=7; i++) if(b & (1 << i)) buf |= (1 << (7-i));]
    The loop runs for i = 0, ..., 7; [n] counts the iterations left. *)
Fixpoint bit_reverse_loop (n : nat) (i b buf : Z) : Z :=
  match n with
  | O => buf
  | S n' =>
      let buf' :=
        if Z.land b (Z.shiftl 1 i) =? 0 then buf
        else u8 (Z.lor buf (Z.shiftl 1 (7 - i))) in
      bit_reverse_loop n' (i + 1) b buf'
  end.

Definition bit_reverse (b : Z) : Z := bit_reverse_loop 8 0 b 0.


(** *** State

    [t485_data] (state, flags, buf) and the registers of the ATtiny85 the
    file touches.  [DEN_PORT] and [USI_PORT] are the registers behind the
    macros of tiny485_pin.h. *)

Inductive t485_state : Set :=
| T485_STATE_INIT1
| T485_STATE_INIT2
| T485_STATE_IDLE
| T485_STATE_RECV
| T485_STATE_XMIT1
| T485_STATE_XMIT2.

Record machine : Set := mkMachine {
  state : t485_state;
  flags : Z;
  buf : Z;
  USIDR : Z;
  USISR : Z;
  USIBR : Z;
  USICR : Z;
  TCCR0B : Z;
  TCNT0 : Z;
  GIMSK : Z;
  DEN_PORT : Z;
  USI_PORT : Z
}.

Definition set_state (v : t485_state) (m : machine) : machine :=
  mkMachine v (flags m) (buf m) (USIDR m) (USISR m) (USIBR m) (USICR m)
    (TCCR0B m) (TCNT0 m) (GIMSK m) (DEN_PORT m) (USI_PORT m).
Definition set_flags (v : Z) (m : machine) : machine :=
  mkMachine (state m) v (buf m) (USIDR m) (USISR m) (USIBR m) (USICR m)
    (TCCR0B m) (TCNT0 m) (GIMSK m) (DEN_PORT m) (USI_PORT m).
Definition set_buf (v : Z) (m : machine) : machine :=
  mkMachine (state m) (flags m) v (USIDR m) (USISR m) (USIBR m) (USICR m)
    (TCCR0B m) (TCNT0 m) (GIMSK m) (DEN_PORT m) (USI_PORT m).
Definition set_USIDR (v : Z) (m : machine) : machine :=
  mkMachine (state m) (flags m) (buf m) v (USISR m) (USIBR m) (USICR m)
    (TCCR0B m) (TCNT0 m) (GIMSK m) (DEN_PORT m) (USI_PORT m).
Definition set_USISR (v : Z) (m : machine) : machine :=
  mkMachine (state m) (flags m) (buf m) (USIDR m) v (USIBR m) (USICR m)
    (TCCR0B m) (TCNT0 m) (GIMSK m) (DEN_PORT m) (USI_PORT m).
Definition set_USIBR (v : Z) (m : machine) : machine :=
  mkMachine (state m) (flags m) (buf m) (USIDR m) (USISR m) v (USICR m)
    (TCCR0B m) (TCNT0 m) (GIMSK m) (DEN_PORT m) (USI_PORT m).
Definition set_USICR (v : Z) (m : machine) : machine :=
  mkMachine (state m) (flags m) (buf m) (USIDR m) (USISR m) (USIBR m) v
    (TCCR0B m) (TCNT0 m) (GIMSK m) (DEN_PORT m) (USI_PORT m).
Definition set_TCCR0B (v : Z) (m : machine) : machine :=
  mkMachine (state m) (flags m) (buf m) (USIDR m) (USISR m) (USIBR m) (USICR m)
    v (TCNT0 m) (GIMSK m) (DEN_PORT m) (USI_PORT m).
Definition set_TCNT0 (v : Z) (m : machine) : machine :=
  mkMachine (state m) (flags m) (buf m) (USIDR m) (USISR m) (USIBR m) (USICR m)
    (TCCR0B m) v (GIMSK m) (DEN_PORT m) (USI_PORT m).
Definition set_GIMSK (v : Z) (m : machine) : machine :=
  mkMachine (state m) (flags m) (buf m) (USIDR m) (USISR m) (USIBR m) (USICR m)
    (TCCR0B m) (TCNT0 m) v (DEN_PORT m) (USI_PORT m).
Definition set_DEN_PORT (v : Z) (m : machine) : machine :=
  mkMachine (state m) (flags m) (buf m) (USIDR m) (USISR m) (USIBR m) (USICR m)
    (TCCR0B m) (TCNT0 m) (GIMSK m) v (USI_PORT m).

(** The calls into the layer above, in the order a handler makes them. *)
Inductive event : Set :=
| sync_received
| byte_received (b : Z)
| byte_sent.

(** *** Hardware convenience macros *)

(** [TCCR0B |= 0b00000010] *)
Definition TIM0_ON (m : machine) : machine :=
  set_TCCR0B (u8 (Z.lor (TCCR0B m) 0x02)) m.
(** [TCCR0B &= 0b11111000] *)
Definition TIM0_OFF (m : machine) : machine :=
  set_TCCR0B (u8 (Z.land (TCCR0B m) 0xF8)) m.
(** [USICR |= 0b00010100] *)
Definition USI_ON (m : machine) : machine :=
  set_USICR (u8 (Z.lor (USICR m) 0x14)) m.
(** [USICR &= 0b11000011] *)
Definition USI_OFF (m : machine) : machine :=
  set_USICR (u8 (Z.land (USICR m) 0xC3)) m.
(** [GIMSK |= 0b00100000] *)
Definition PCINT0_ON (m : machine) : machine :=
  set_GIMSK (u8 (Z.lor (GIMSK m) 0x20)) m.
(** [GIMSK &= 0b11011111] *)
Definition PCINT0_OFF (m : machine) : machine :=
  set_GIMSK (u8 (Z.land (GIMSK m) 0xDF)) m.
(** [USISR = (USISR & 0b11110000) | n] *)
Definition USICOUNTER (n : Z) (m : machine) : machine :=
  set_USISR (u8 (Z.lor (Z.land (USISR m) 0xF0) n)) m.

(** avr/io.h: the overflow flag is bit 6 of USISR. *)
Definition USIOIF : Z := 6.

(** Is the pin-change interrupt enabled (bit 5 of GIMSK)? *)
Definition pcint0_enabled (m : machine) : bool := Z.testbit (GIMSK m) 5.

(** Timer 0 runs while one of its clock-select bits (TCCR0B bits 2..0) is
    set. *)
Definition timer0_running (m : machine) : bool :=
  negb (Z.land (TCCR0B m) 0x07 =? 0).

(** *** Interface functions *)

Section Pins.

(** Bit numbers of the driver-enable and data-in pins (tiny485_pin.h). *)
Variables DEN DI : Z.

(** Is the line driver enabled (bit DEN of DEN_PORT)? *)
Definition driver_enabled (m : machine) : bool := Z.testbit (DEN_PORT m) DEN.

Definition begin_transmission (m : machine) : machine :=
  let m := set_DEN_PORT (u8 (Z.lor (DEN_PORT m) (_BV DEN))) m in
  PCINT0_OFF m.

Definition end_transmission (m : machine) : machine :=
  let m := set_DEN_PORT (u8 (Z.land (DEN_PORT m) (Z.lnot (_BV DEN)))) m in
  PCINT0_ON m.

(** Pin change ISR. *)
Definition ISR_PCINT0 (m : machine) : machine :=
  match state m with
  | T485_STATE_INIT1 | T485_STATE_INIT2 =>
      set_TCNT0 (T485_BIT_TIMER / 2) m
  | T485_STATE_IDLE =>
      if Z.land (USI_PORT m) (_BV DI) =? 0 then
        let m := set_TCNT0 (T485_BIT_TIMER / 2) m in
        let m := set_state T485_STATE_RECV m in
        let m := USICOUNTER T485_RECV_SEED m in
        let m := PCINT0_OFF m in
        let m := TIM0_ON m in
        USI_ON m
      else m
  | _ => m
  end.

End Pins.

Definition send_byte (b : Z) (m : machine) : machine :=
  let m := set_USIDR (Z.shiftr b 1) m in
  let m := USICOUNTER T485_XMIT_SEED m in
  let m := set_buf (u8 (Z.lor (Z.shiftl b 4) 0x0F)) m in
  let m := set_state T485_STATE_XMIT1 m in
  let m := USI_ON m in
  TIM0_ON m.

(** Bit timer interrupt. *)
Definition ISR_TIM0_COMPA (m : machine) : machine * list event :=
  match state m with
  | T485_STATE_INIT1 =>
      if USIDR m =? T485_INIT1 then
        (set_USIDR 0 (set_state T485_STATE_INIT2 m), [])
      else (m, [])
  | T485_STATE_INIT2 =>
      if USIDR m =? T485_INIT2 then
        (set_state T485_STATE_IDLE m, [sync_received])
      else (m, [])
  | _ => (m, [])
  end.

(** The test [t485_data.flags & T485_FLAG_ESCAPE]. *)
Definition escape_pending (m : machine) : bool :=
  negb (Z.land (flags m) T485_FLAG_ESCAPE =? 0).

(** The [switch(USIBR)] of the receive branch: the escape decoder. *)
Definition recv_dispatch (m : machine) : machine * list event :=
  if USIBR m =? T485_SYNC_BYTE then
    (m, [sync_received])
  else if USIBR m =? T485_ESCAPE_BYTE then
    (set_flags (u8 (Z.lor (flags m) T485_FLAG_ESCAPE)) m, [])
  else if escape_pending m then
    if USIBR m =? T485_ESCAPED_SYNC then
      (m, [byte_received T485_SYNC_BYTE])
    else if USIBR m =? T485_ESCAPED_ESCAPE then
      (m, [byte_received T485_ESCAPE_BYTE])
    else
      (m, [byte_received (USIBR m)])
  else
    (m, [byte_received (USIBR m)]).

(** USI overflow vector.  The handler's [sei()] only allows other
    interrupts to nest; each handler is modelled as running to completion. *)
Definition ISR_USI_OVF (m : machine) : machine * list event :=
  match state m with
  | T485_STATE_XMIT1 =>
      let m := set_USISR (u8 (Z.lor (USISR m) (_BV USIOIF))) m in
      let m := set_USIDR (buf m) m in
      let m := USICOUNTER T485_XMIT_SEED m in
      (set_state T485_STATE_XMIT2 m, [])
  | T485_STATE_XMIT2 =>
      let m := set_USISR (u8 (Z.lor (USISR m) (_BV USIOIF))) m in
      let m := USI_OFF m in
      let m := TIM0_OFF m in
      let m := set_state T485_STATE_IDLE m in
      (m, [byte_sent])
  | T485_STATE_RECV =>
      let m := USI_OFF m in
      let m := TIM0_OFF m in
      let m := set_state T485_STATE_IDLE m in
      let m := set_buf (USIBR m) m in
      let m := PCINT0_OFF m in
      recv_dispatch m
  | _ => (m, [])
  end.

(** *** The USI on the wire

    How the handlers use the shift register, as the seeds' comments say:
    a load shifts out 16 - 11 = 5 bits (start bit and high half, then low
    half and stop bit), a reception shifts in 16 - 7 = 9 bits (start bit and
    data).  The data output is bit 7 of USIDR; a clock shifts USIDR left by
    one and takes the data input into bit 0; on overflow USIDR is copied to
    USIBR. *)

(** Clocks until the 4-bit counter in USISR overflows. *)
Definition usi_clocks (m : machine) : nat :=
  Z.to_nat (16 - Z.land (USISR m) 0x0F).

Fixpoint usi_shift_out (n : nat) (dr : Z) : list bool :=
  match n with
  | O => []
  | S n' => Z.testbit dr 7 :: usi_shift_out n' (u8 (Z.shiftl dr 1))
  end.

Definition usi_shift_in (bits : list bool) (dr : Z) : Z :=
  fold_left (fun d (bit : bool) => u8 (Z.lor (Z.shiftl d 1) (Z.b2z bit)))
    bits dr.

(** The line bits of one [send_byte b] and the two overflow interrupts that
    follow it, with the machine and the events after them. *)
Definition xmit_byte (b : Z) (m : machine) : list bool * (machine * list event) :=
  let m1 := send_byte b m in
  let bits1 := usi_shift_out (usi_clocks m1) (USIDR m1) in
  let (m2, e2) := ISR_USI_OVF m1 in
  let bits2 := usi_shift_out (usi_clocks m2) (USIDR m2) in
  let (m3, e3) := ISR_USI_OVF m2 in
  (bits1 ++ bits2, (m3, e2 ++ e3)).

(** A reception: the pin-change interrupt at the start bit's edge, the
    counter's worth of line bits shifted in, then the overflow interrupt. *)
Definition recv_bits (DI : Z) (bits : list bool) (m : machine)
  : machine * list event :=
  let m1 := ISR_PCINT0 DI m in
  let dr := usi_shift_in (firstn (usi_clocks m1) bits) (USIDR m1) in
  ISR_USI_OVF (set_USIBR dr (set_USIDR dr m1)).

(** Equality test on line bits. *)
Fixpoint bits_eqb (a b : list bool) : bool :=
  match a, b with
  | [], [] => true
  | x :: a', y :: b' => Bool.eqb x y && bits_eqb a' b'
  | _, _ => false
  end.

(** Equality test on event traces. *)
Definition event_eqb (a b : event) : bool :=
  match a, b with
  | sync_received, sync_received => true
  | byte_received x, byte_received y => x =? y
  | byte_sent, byte_sent => true
  | _, _ => false
  end.

Fixpoint events_eqb (a b : list event) : bool :=
  match a, b with
  | [], [] => true
  | x :: a', y :: b' => event_eqb x y && events_eqb a' b'
  | _, _ => false
  end.

(** The tracked registers as [tiny485_init] leaves them in a build without
    REQUIRE_SYNC, with the data line low (a start bit). *)
Definition idle_machine : machine :=
  mkMachine T485_STATE_IDLE 0 0 0 0 0 0x50 0x02 0 0x20 0 0.

(** One byte from a sending node to a listening one, both as
    [tiny485_init] left them: the events the listener's handlers raise.
    DI is PCINT0, pin 0 ([PCMSK = 0b00000001], "enable for PCINT0 (DI)
    pin"). *)
Definition loopback (b : Z) : list event :=
  snd (recv_bits 0 (fst (xmit_byte b idle_machine)) idle_machine).

(** A receive event: the overflow interrupt in the receive state with the
    wire byte [w] in USIBR. *)
Definition recv_event (w : Z) (m : machine) : machine * list event :=
  ISR_USI_OVF (set_USIBR w (set_state T485_STATE_RECV m)).

(** Receive events for a sequence of wire bytes, events in order. *)
Fixpoint recv_stream (ws : list Z) (m : machine) : machine * list event :=
  match ws with
  | [] => (m, [])
  | w :: ws' =>
      let (m1, e1) := recv_event w m in
      let (m2, e2) := recv_stream ws' m1 in
      (m2, e1 ++ e2)
  end.

(** *** Machines the properties are tried on *)

(** A receive event at the substitute code 0x00 with the escape flag set. *)
Definition escaped_sync_pending : machine :=
  mkMachine T485_STATE_RECV T485_FLAG_ESCAPE 0 0 0 T485_ESCAPED_SYNC
    0x50 0x02 0 0 0 0.

(** A receive event at the sync byte with the escape flag set. *)
Definition sync_while_escape_pending : machine :=
  mkMachine T485_STATE_RECV T485_FLAG_ESCAPE 0 0 0 T485_SYNC_BYTE
    0x50 0x02 0 0 0 0.

(** An ordinary data byte 0x42 has been clocked in. *)
Definition data_byte_received : machine :=
  mkMachine T485_STATE_RECV 0 0 0x42 0 0x42 0x54 0x02 0 0 0 0.

(** The second half of a byte is going out: every pin of the driver port is
    high and the pin-change interrupt is masked, as begin_transmission left
    it. *)
Definition second_half_going_out : machine :=
  mkMachine T485_STATE_XMIT2 0 0xFF 0xFF 0x0B 0 0x54 0x02 0 0 0xFF 0.

(** *** Further code of tiny485.c *)



(** Bit timer interrupts while hunting for the init sequence, one for each
    content of USIDR found at a tick. *)
Fixpoint hunt (samples : list Z) (m : machine) : machine * list event :=
  match samples with
  | [] => (m, [])
  | s :: samples' =>
      let (m1, e1) := ISR_TIM0_COMPA (set_USIDR s m) in
      let (m2, e2) := hunt samples' m1 in
      (m2, e1 ++ e2)
  end.

(** The registers only [tiny485_init] writes.  The two data direction
    registers are kept by register address, since tiny485_pin.h may name the
    same register twice; [sreg_i] is the global interrupt enable that
    [sei()] sets. *)
Record init_regs : Type := mkInitRegs {
  ddr : Z -> Z;
  TCCR0A : Z;
  OCR0A : Z;
  PCMSK : Z;
  sreg_i : bool
}.

(** A write to the data direction register at address [a]. *)
Definition set_ddr (a v : Z) (r : init_regs) : init_regs :=
  mkInitRegs (fun x => if x =? a then v else ddr r x)
    (TCCR0A r) (OCR0A r) (PCMSK r) (sreg_i r).

Section Init.

(** Addresses of the direction registers and bit numbers of the pins
    (tiny485_pin.h); [REQUIRE_SYNC] is the build option. *)
Variables USI_DDR DEN_DDR DO DI DEN : Z.
Variable REQUIRE_SYNC : bool.

Definition tiny485_init (mr : machine * init_regs) : machine * init_regs :=
  let (m, r) := mr in
  let m :=
    if REQUIRE_SYNC then set_state T485_STATE_INIT1 m
    else set_state T485_STATE_IDLE m in
  let r := set_ddr USI_DDR (u8 (Z.lor (ddr r USI_DDR) (_BV DO))) r in
  let r := set_ddr USI_DDR (u8 (Z.land (ddr r USI_DDR) (Z.lnot (_BV DI)))) r in
  let r := set_ddr DEN_DDR (u8 (Z.lor (ddr r DEN_DDR) (_BV DEN))) r in
  let r := mkInitRegs (ddr r) 0x02 (OCR0A r) (PCMSK r) (sreg_i r) in
  let m := set_TCCR0B 0x02 m in
  let r := mkInitRegs (ddr r) (TCCR0A r) T485_BIT_TIMER (PCMSK r) (sreg_i r) in
  let m := set_USICR 0x50 m in
  let r := mkInitRegs (ddr r) (TCCR0A r) (OCR0A r) 0x01 (sreg_i r) in
  let m := set_GIMSK 0x20 m in
  let r := mkInitRegs (ddr r) (TCCR0A r) (OCR0A r) (PCMSK r) true in
  (m, r).

End Init.

(** Is pin [bit] of the direction register at address [a] an output? *)
Definition is_output (a bit : Z) (r : init_regs) : bool :=
  Z.testbit (ddr r a) bit.

(** A machine whose registers and bytes are 8 bits wide. *)
Definition wf_machine (m : machine) : Prop :=
  is_u8 (flags m) /\ is_u8 (buf m) /\ is_u8 (USIDR m) /\ is_u8 (USISR m) /\
  is_u8 (USIBR m) /\ is_u8 (USICR m) /\ is_u8 (TCCR0B m) /\ is_u8 (TCNT0 m) /\
  is_u8 (GIMSK m) /\ is_u8 (DEN_PORT m) /\ is_u8 (USI_PORT m).

(** The pin numbers of a port. *)
Definition all_pins : list Z := [0; 1; 2; 3; 4; 5; 6; 7].

(** A transmission being prepared on pin 3: driver off, pin-change
    interrupt on. *)
Definition before_transmission : machine :=
  mkMachine T485_STATE_IDLE 0 0 0 0 0 0x50 0x02 0 0x20 0x10 0.

(** No registers written yet. *)
Definition reset_regs : init_regs := mkInitRegs (fun _ => 0) 0 0 0 false.




(** A node hunting for the first half of the init sequence. *)
Definition hunting_machine : machine :=
  mkMachine T485_STATE_INIT1 0 0 0 0 0 0x50 0x02 0 0x20 0 0.

End Tiny485.

Module Sbp.

(** *** Constants of sbp.c *)

Definition SBP_HEADER_LENGTH : Z := 6.
Definition SBP_CHECKSUM_LENGTH : Z := 1.
Definition SBP_FLAG_ERROR : Z := 0x01.
Definition SBP_FLAG_ESCAPE : Z := 0x02.
Definition SBP_BYTE_SYNC : Z := 0xAA.
Definition SBP_BYTE_ESCAPE : Z := 0x55.

Inductive sbp_state_t : Set :=
| SBP_INIT
| SBP_IDLE
| SBP_XMIT_HEADER
| SBP_XMIT_PAYLOAD
| SBP_XMIT_CHECKSUM
| SBP_RECV_HEADER
| SBP_RECV_PAYLOAD
| SBP_RECV_CHECKSUM
| SBP_RECV_IGNORE.

Definition sbp_state_eqb (a b : sbp_state_t) : bool :=
  match a, b with
  | SBP_INIT, SBP_INIT | SBP_IDLE, SBP_IDLE
  | SBP_XMIT_HEADER, SBP_XMIT_HEADER | SBP_XMIT_PAYLOAD, SBP_XMIT_PAYLOAD
  | SBP_XMIT_CHECKSUM, SBP_XMIT_CHECKSUM | SBP_RECV_HEADER, SBP_RECV_HEADER
  | SBP_RECV_PAYLOAD, SBP_RECV_PAYLOAD | SBP_RECV_CHECKSUM, SBP_RECV_CHECKSUM
  | SBP_RECV_IGNORE, SBP_RECV_IGNORE => true
  | _, _ => false
  end.

(** Modelled from the spec: sbp.h, which declares [sbp_frame_t], is not
    among the sources.  The record has the members sbp.c names
    ([sync], [type], [length], [len], [dst], [src], [payload], [msg],
    [checksum]), with the widths of the design document's frame table: one
    byte each, two bytes for the length; [payload] and [msg] are pointers,
    kept as addresses.  sbp.c writes the length as [length] in sbp_send and
    sbp_init and as [len] in the interrupt handler; both are kept as the
    file names them. *)
Record sbp_frame_t : Set := mkFrame {
  sync : Z;
  type : Z;
  length : Z;
  len : Z;
  dst : Z;
  src : Z;
  payload : Z;
  msg : Z;
  checksum : Z
}.

(** [_data], with the one register the overflow handler moves bytes
    through.  [data_checksum] is the [_data.checksum] the handler reads in
    the checksum stage. *)
Record data : Set := mkData {
  state : sbp_state_t;
  index : Z;
  size : Z;
  flags : Z;
  address : Z;
  frame : sbp_frame_t;
  data_checksum : Z;
  USIBR : Z
}.

Definition set_state (v : sbp_state_t) (d : data) : data :=
  mkData v (index d) (size d) (flags d) (address d) (frame d)
    (data_checksum d) (USIBR d).
Definition set_index (v : Z) (d : data) : data :=
  mkData (state d) v (size d) (flags d) (address d) (frame d)
    (data_checksum d) (USIBR d).
Definition set_flags (v : Z) (d : data) : data :=
  mkData (state d) (index d) (size d) v (address d) (frame d)
    (data_checksum d) (USIBR d).
Definition set_address (v : Z) (d : data) : data :=
  mkData (state d) (index d) (size d) (flags d) v (frame d)
    (data_checksum d) (USIBR d).
Definition set_frame (v : sbp_frame_t) (d : data) : data :=
  mkData (state d) (index d) (size d) (flags d) (address d) v
    (data_checksum d) (USIBR d).
Definition set_USIBR (v : Z) (d : data) : data :=
  mkData (state d) (index d) (size d) (flags d) (address d) (frame d)
    (data_checksum d) v.

Definition set_sync (v : Z) (f : sbp_frame_t) : sbp_frame_t :=
  mkFrame v (type f) (length f) (len f) (dst f) (src f) (payload f) (msg f)
    (checksum f).
Definition set_type (v : Z) (f : sbp_frame_t) : sbp_frame_t :=
  mkFrame (sync f) v (length f) (len f) (dst f) (src f) (payload f) (msg f)
    (checksum f).
Definition set_length (v : Z) (f : sbp_frame_t) : sbp_frame_t :=
  mkFrame (sync f) (type f) v (len f) (dst f) (src f) (payload f) (msg f)
    (checksum f).
Definition set_len (v : Z) (f : sbp_frame_t) : sbp_frame_t :=
  mkFrame (sync f) (type f) (length f) v (dst f) (src f) (payload f) (msg f)
    (checksum f).
Definition set_dst (v : Z) (f : sbp_frame_t) : sbp_frame_t :=
  mkFrame (sync f) (type f) (length f) (len f) v (src f) (payload f) (msg f)
    (checksum f).
Definition set_src (v : Z) (f : sbp_frame_t) : sbp_frame_t :=
  mkFrame (sync f) (type f) (length f) (len f) (dst f) v (payload f) (msg f)
    (checksum f).
Definition set_payload (v : Z) (f : sbp_frame_t) : sbp_frame_t :=
  mkFrame (sync f) (type f) (length f) (len f) (dst f) (src f) v (msg f)
    (checksum f).
Definition set_msg (v : Z) (f : sbp_frame_t) : sbp_frame_t :=
  mkFrame (sync f) (type f) (length f) (len f) (dst f) (src f) (payload f) v
    (checksum f).
Definition set_checksum (v : Z) (f : sbp_frame_t) : sbp_frame_t :=
  mkFrame (sync f) (type f) (length f) (len f) (dst f) (src f) (payload f)
    (msg f) v.

(** The hardware helpers the handlers call (none is defined in sbp.c), in
    the order of the calls. *)
Inductive hw_call : Set :=
| disable_timer_int
| enable_usi
| disable_usi
| enable_tim0_int.

(** *** Client interface *)

Definition sbp_init (addr : Z) (d : data) : data :=
  let d := set_state SBP_INIT d in
  let d := set_flags 0 d in
  let d := set_frame (set_msg 0 (frame d)) d in
  let d := set_frame (set_length 0 (frame d)) d in
  let d := set_index 0 d in
  set_address addr d.

Definition sbp_idle (d : data) : bool := sbp_state_eqb (state d) SBP_IDLE.

(** [length + SBP_HEADER_LENGTH + SBP_CHECKSUM_LENGTH] is unsigned 16-bit
    arithmetic on the AVR (int is 16 bits wide there). *)
Definition sbp_send (dst0 type0 length0 msg0 : Z) (d : data) : data :=
  if sbp_state_eqb (state d) SBP_IDLE then
    let d := set_state SBP_XMIT_HEADER d in
    let d := set_index 0 d in
    let d := set_frame (set_sync SBP_BYTE_SYNC (frame d)) d in
    let d := set_frame (set_type type0 (frame d)) d in
    let d := set_frame
      (set_length (u16 (length0 + SBP_HEADER_LENGTH + SBP_CHECKSUM_LENGTH))
         (frame d)) d in
    let d := set_frame (set_dst dst0 (frame d)) d in
    let d := set_frame (set_src (address d) (frame d)) d in
    let d := set_frame (set_payload msg0 (frame d)) d in
    set_frame (set_checksum 0 (frame d)) d
  else d.

(** *** USI overflow: one byte has been read or sent *)

(** [case SBP_XMIT_HEADER]: the [switch(_data.index)]. *)
Definition xmit_header (d : data) : data :=
  if index d =? 0 then set_USIBR (sync (frame d)) d
  else if index d =? 1 then set_USIBR (type (frame d)) d
  else if index d =? 2 then set_USIBR (Z.land (len (frame d)) 0xFF) d
  else if index d =? 3 then
    set_USIBR (Z.land (Z.shiftr (len (frame d)) 8) 0xFF) d
  else if index d =? 4 then set_USIBR (dst (frame d)) d
  else if index d =? 5 then set_USIBR (src (frame d)) d
  else set_state SBP_XMIT_PAYLOAD d.

(** [case SBP_RECV_HEADER]: the [switch(_data.index)], then
    [_data.index++]. *)
Definition recv_header (d : data) : data :=
  let d :=
    if index d =? 0 then set_frame (set_sync (USIBR d) (frame d)) d
    else if index d =? 1 then set_frame (set_type (USIBR d) (frame d)) d
    else if index d =? 2 then set_frame (set_len (USIBR d) (frame d)) d
    else if index d =? 3 then
      set_frame
        (set_len (u16 (Z.lor (len (frame d)) (Z.shiftl (USIBR d) 8)))
           (frame d)) d
    else if index d =? 4 then set_frame (set_dst (USIBR d) (frame d)) d
    else if index d =? 5 then
      set_state SBP_RECV_PAYLOAD (set_frame (set_src (USIBR d) (frame d)) d)
    else set_state SBP_RECV_PAYLOAD d in
  set_index (u16 (index d + 1)) d.

(** The handler.  The payload case of the receive stages is the unfinished
    statement [USIBR =] and comments; the checksum and ignore cases are
    comments and [break].  None of the three writes [_data].  The default
    case covers no member of the enumeration. *)
Definition ISR_USI_OVF (d : data) : data * list hw_call :=
  match state d with
  | SBP_INIT | SBP_IDLE => (d, [])
  | SBP_XMIT_HEADER => (xmit_header d, [])
  | SBP_XMIT_PAYLOAD =>
      if index d =? u16 (size d + SBP_HEADER_LENGTH)
      then (set_state SBP_XMIT_CHECKSUM d, [])
      else (d, [])
  | SBP_XMIT_CHECKSUM =>
      let d := set_USIBR (data_checksum d) d in
      let d := set_state SBP_IDLE d in
      (d, [disable_usi; enable_tim0_int])
  | SBP_RECV_HEADER => (recv_header d, [])
  | SBP_RECV_PAYLOAD => (d, [])
  | SBP_RECV_CHECKSUM => (d, [])
  | SBP_RECV_IGNORE => (d, [])
  end.

(** [n] overflow interrupts in a row (bytes sent), calls in order. *)
Fixpoint overflows (n : nat) (d : data) : data * list hw_call :=
  match n with
  | O => (d, [])
  | S n' =>
      let (d1, c1) := ISR_USI_OVF d in
      let (d2, c2) := overflows n' d1 in
      (d2, c1 ++ c2)
  end.

(** Overflow interrupts for a sequence of received bytes, each in USIBR
    when its interrupt runs. *)
Fixpoint receive (bs : list Z) (d : data) : data * list hw_call :=
  match bs with
  | [] => (d, [])
  | b :: bs' =>
      let (d1, c1) := ISR_USI_OVF (set_USIBR b d) in
      let (d2, c2) := receive bs' d1 in
      (d2, c1 ++ c2)
  end.

(** [_data] after [sbp_init(addr)] and the first sync: idle. *)
Definition idle_data (addr : Z) : data :=
  mkData SBP_IDLE 0 0 0 addr (mkFrame 0 0 0 0 0 0 0 0 0) 0 0.

(** [_data] as the sync detection leaves it: header stage, index 1. *)
Definition synced_data (addr : Z) : data :=
  mkData SBP_RECV_HEADER 1 0 0 addr (mkFrame 0 0 0 0 0 0 0 0 0) 0 0.

(** [_data] in the checksum stage with checksum 0xBD on record. *)
Definition awaiting_checksum : data :=
  mkData SBP_RECV_CHECKSUM 9 3 0 0x02
    (mkFrame 0xAA 0x10 0 0x0A 0x02 0x01 0 0 0xBD) 0xBD 0.

(** *** Timer interrupt: bus synchronisation *)

(** [_data.buf = (_data.buf << 1) | (SB_PORT & SB_DIN)?1:0;]
    The conditional operator binds more loosely than [|], so the statement
    stores [((_data.buf << 1) | (SB_PORT & SB_DIN)) ? 1 : 0].  [din] is the
    value of [SB_PORT & SB_DIN]. *)
Definition shift_in_bit (buf din : Z) : Z :=
  if Z.lor (Z.shiftl buf 1) din =? 0 then 0 else 1.

(** [ISR(TIM0_vect)], on [_data] and the [_data.buf] the handler keeps its
    bits in. *)
Definition ISR_TIM0 (din : Z) (db : data * Z) : (data * Z) * list hw_call :=
  let (d, buf) := db in
  match state d with
  | SBP_INIT =>
      let buf := shift_in_bit buf din in
      if negb (Z.land (flags d) SBP_FLAG_ESCAPE =? 0) then
        ((set_flags (u8 (Z.land (flags d) (Z.lnot SBP_FLAG_ESCAPE))) d, buf), [])
      else
        let (d, c) :=
          if buf =? SBP_BYTE_SYNC
          then (set_state SBP_RECV_HEADER (set_index 1 d),
                [disable_timer_int; enable_usi])
          else (d, []) in
        let d :=
          if buf =? SBP_BYTE_ESCAPE
          then set_flags (u8 (Z.lor (flags d) SBP_FLAG_ESCAPE)) d
          else d in
        ((d, buf), c)
  | SBP_IDLE =>
      let buf := shift_in_bit buf din in
      if buf =? SBP_BYTE_SYNC
      then ((set_state SBP_RECV_HEADER (set_index 1 d), buf),
            [disable_timer_int; enable_usi])
      else ((d, buf), [])
  | _ => ((d, buf), [])
  end.

(** What can happen to the library: a timer tick with a pin sample, a USI
    overflow with a byte in USIBR, a call of sbp_send. *)
Inductive sbp_event : Set :=
| ev_tick (din : Z)
| ev_overflow (usibr : Z)
| ev_send (dst0 type0 length0 msg0 : Z).

Definition sbp_step (db : data * Z) (e : sbp_event) : data * Z :=
  match e with
  | ev_tick din => fst (ISR_TIM0 din db)
  | ev_overflow b => (fst (ISR_USI_OVF (set_USIBR b (fst db))), snd db)
  | ev_send a t l p => (sbp_send a t l p (fst db), snd db)
  end.

Definition sbp_run (es : list sbp_event) (db : data * Z) : data * Z :=
  fold_left sbp_step es db.

Definition is_u16 (x : Z) : Prop := 0 <= x < 65536.

(** [_data] in the transmit-header stage past the header, with size 3. *)
Definition past_header : data :=
  mkData SBP_XMIT_HEADER 9 3 0 0x01
    (mkFrame 0xAA 0x10 0x0A 0x0A 0x02 0x01 0x60 0 0) 0xBD 0.

End Sbp.

Module Tiny485Facts.
Import Tiny485.

Lemma u8_testbit (x j : Z) :
  0 <= j -> Z.testbit (u8 x) j = (j <? 8) && Z.testbit x j.
Proof.
  intros Hj. unfold u8. change 256 with (2 ^ 8).
  rewrite Z.testbit_mod_pow2 by lia. reflexivity.
Qed.

Lemma land_bit_zero (b i : Z) :
  0 <= i -> (Z.land b (Z.shiftl 1 i) =? 0) = negb (Z.testbit b i).
Proof.
  intros Hi.
  destruct (Z.testbit b i) eqn:Hb; simpl.
  - apply Z.eqb_neq. intros H0.
    assert (Ht : Z.testbit (Z.land b (Z.shiftl 1 i)) i = true).
    { rewrite Z.land_spec, Hb, Z.shiftl_spec by lia.
      rewrite Z.sub_diag. reflexivity. }
    rewrite H0, Z.bits_0 in Ht. discriminate.
  - apply Z.eqb_eq. apply Z.bits_inj'. intros j Hj.
    rewrite Z.land_spec, Z.bits_0, Z.shiftl_spec by lia.
    destruct (Z.eq_dec j i) as [->|Hne].
    + rewrite Hb. reflexivity.
    + replace (Z.testbit 1 (j - i)) with false; [apply andb_false_r|].
      symmetry. destruct (Z_lt_ge_dec j i).
      * apply Z.testbit_neg_r. lia.
      * change 1 with (2 ^ 0). apply Z.pow2_bits_false. lia.
Qed.

Lemma one_shl_testbit (k j : Z) :
  0 <= k -> 0 <= j -> Z.testbit (Z.shiftl 1 k) j = (j =? k).
Proof.
  intros Hk Hj. rewrite Z.shiftl_spec by lia.
  destruct (Z.eqb_spec j k) as [->|Hne].
  - rewrite Z.sub_diag. reflexivity.
  - destruct (Z_lt_ge_dec j k).
    + apply Z.testbit_neg_r. lia.
    + change 1 with (2 ^ 0). apply Z.pow2_bits_false. lia.
Qed.

(** Loop invariant of [bit_reverse]: the iterations i, ..., 7 add bit [7-i']
    for every [i'] in that range at which [b] has a bit. *)
Lemma bit_reverse_loop_bits (n : nat) : forall i b buf j,
  0 <= i -> i + Z.of_nat n = 8 -> 0 <= j ->
  (forall k, 8 <= k -> Z.testbit buf k = false) ->
  Z.testbit (bit_reverse_loop n i b buf) j
  = Z.testbit buf j || ((j <=? 7 - i) && Z.testbit b (7 - j)).
Proof.
  induction n as [|n IH]; intros i b buf j Hi Hn Hj Hhi.
  - cbn [bit_reverse_loop].
    replace (j <=? 7 - i) with false by (symmetry; apply Z.leb_gt; lia).
    cbn [andb]. now rewrite orb_false_r.
  - cbn [bit_reverse_loop]. rewrite land_bit_zero by lia.
    destruct (Z.testbit b i) eqn:Hb; cbn [negb].
    + rewrite IH; try lia.
      * rewrite u8_testbit, Z.lor_spec, one_shl_testbit by lia.
        destruct (Z.eqb_spec j (7 - i)) as [->|Hne].
        -- replace (7 - (7 - i)) with i by lia. rewrite Hb.
           replace (7 - i <? 8) with true by (symmetry; apply Z.ltb_lt; lia).
           replace (7 - i <=? 7 - (i + 1)) with false
             by (symmetry; apply Z.leb_gt; lia).
           replace (7 - i <=? 7 - i) with true by (symmetry; apply Z.leb_le; lia).
           destruct (Z.testbit buf (7 - i)); reflexivity.
        -- rewrite orb_false_r.
           destruct (Z.ltb_spec j 8) as [Hlt|Hge].
           ++ cbn [andb]. f_equal.
              destruct (Z.leb_spec j (7 - (i + 1))), (Z.leb_spec j (7 - i));
                try reflexivity; lia.
           ++ rewrite (Hhi j) by lia. cbn [andb orb].
              destruct (Z.leb_spec j (7 - (i + 1))), (Z.leb_spec j (7 - i));
                try reflexivity; lia.
      * intros k Hk. rewrite u8_testbit by lia.
        replace (k <? 8) with false by (symmetry; apply Z.ltb_ge; lia).
        reflexivity.
    + rewrite IH; try lia; [|assumption]. f_equal.
      destruct (Z.eqb_spec j (7 - i)) as [->|Hne].
      * replace (7 - (7 - i)) with i by lia. rewrite Hb.
        now rewrite !andb_false_r.
      * destruct (Z.leb_spec j (7 - (i + 1))), (Z.leb_spec j (7 - i));
          try reflexivity; lia.
Qed.

(** Bit [j] of the reversed byte is bit [7-j] of the byte. *)
Lemma bit_reverse_testbit (b j : Z) :
  0 <= j ->
  Z.testbit (bit_reverse b) j = (j <=? 7) && Z.testbit b (7 - j).
Proof.
  intros Hj. unfold bit_reverse.
  rewrite bit_reverse_loop_bits; try lia.
  - rewrite Z.bits_0, Z.sub_0_r. reflexivity.
  - intros k _. apply Z.bits_0.
Qed.

Lemma u8_bits_high (b k : Z) : is_u8 b -> 8 <= k -> Z.testbit b k = false.
Proof.
  intros [Hlo Hhi] Hk.
  rewrite <- (Z.mod_small b (2 ^ 8)) by (change (2 ^ 8) with 256; lia).
  apply Z.mod_pow2_bits_high. lia.
Qed.

(** C10: bit_reverse is an involution on 8-bit values:
    bit_reverse(bit_reverse(b)) == b for every uint8_t b. *)
Theorem bit_reverse_involutive (b : Z) :
  is_u8 b -> bit_reverse (bit_reverse b) = b.
Proof.
  intros Hb. apply Z.bits_inj'. intros j Hj.
  rewrite bit_reverse_testbit by assumption.
  destruct (Z.leb_spec j 7) as [Hle|Hgt]; cbn [andb].
  - rewrite bit_reverse_testbit by lia.
    replace (7 - j <=? 7) with true by (symmetry; apply Z.leb_le; lia).
    cbn [andb]. f_equal. lia.
  - symmetry. apply u8_bits_high; [assumption|lia].
Qed.

Lemma bit_reverse_involutive_witness :
  is_u8 0xA5 /\ bit_reverse (bit_reverse 0xA5) = 0xA5.
Proof.
  split.
  - unfold is_u8. lia.
  - apply (bit_reverse_involutive 0xA5). unfold is_u8. lia.
Defined.

(** *** Reading the masks *)

Lemma u8_land (x : Z) : u8 x = Z.land x 0xFF.
Proof. unfold u8. change 256 with (2 ^ 8). now rewrite <- Z.land_ones by lia. Qed.

Lemma escape_pending_bit (m : machine) :
  escape_pending m = Z.testbit (flags m) 0.
Proof.
  unfold escape_pending, T485_FLAG_ESCAPE.
  change 1 with (Z.shiftl 1 0) at 1.
  rewrite land_bit_zero by lia. apply negb_involutive.
Qed.

Lemma event_eqb_eq (a b : event) : event_eqb a b = true -> a = b.
Proof.
  destruct a, b; cbn; try discriminate; try reflexivity.
  intros H. apply Z.eqb_eq in H. now subst.
Qed.

Lemma events_eqb_eq (a : list event) : forall b, events_eqb a b = true -> a = b.
Proof.
  induction a as [|x a IH]; intros [|y b]; cbn; try discriminate; try reflexivity.
  intros H. apply andb_true_iff in H. destruct H as [Hx Ha].
  apply event_eqb_eq in Hx. apply IH in Ha. now subst.
Qed.

Lemma bits_eqb_eq (a : list bool) : forall b, bits_eqb a b = true -> a = b.
Proof.
  induction a as [|x a IH]; intros [|y b]; cbn; try discriminate; try reflexivity.
  intros H. apply andb_true_iff in H. destruct H as [Hx Ha].
  apply Bool.eqb_prop in Hx. apply IH in Ha. now subst.
Qed.

Lemma all_bytes_complete (b : Z) : is_u8 b -> In b all_bytes.
Proof.
  intros [Hlo Hhi]. unfold all_bytes. apply in_map_iff.
  exists (Z.to_nat b). split; [lia|]. apply in_seq. lia.
Qed.

Lemma forall_bytes (P : Z -> bool) :
  forallb P all_bytes = true -> forall b, is_u8 b -> P b = true.
Proof.
  intros H b Hb. rewrite forallb_forall in H. apply H.
  now apply all_bytes_complete.
Qed.

(** *** The receive decoder *)

(** [recv_dispatch] writes nothing but the flags. *)
Lemma recv_dispatch_frame (m : machine) :
  let m' := fst (recv_dispatch m) in
  state m' = state m /\ buf m' = buf m /\ GIMSK m' = GIMSK m /\
  USICR m' = USICR m /\ TCCR0B m' = TCCR0B m /\ DEN_PORT m' = DEN_PORT m.
Proof.
  unfold recv_dispatch.
  destruct (USIBR m =? T485_SYNC_BYTE); [cbn; tauto|].
  destruct (USIBR m =? T485_ESCAPE_BYTE); [cbn; tauto|].
  destruct (escape_pending m); [|cbn; tauto].
  destruct (USIBR m =? T485_ESCAPED_SYNC); [cbn; tauto|].
  destruct (USIBR m =? T485_ESCAPED_ESCAPE); cbn; tauto.
Qed.

Lemma recv_dispatch_flags (m : machine) :
  flags (fst (recv_dispatch m))
  = if (negb (USIBR m =? T485_SYNC_BYTE) && (USIBR m =? T485_ESCAPE_BYTE))%bool
    then u8 (Z.lor (flags m) T485_FLAG_ESCAPE) else flags m.
Proof.
  unfold recv_dispatch.
  destruct (USIBR m =? T485_SYNC_BYTE); [reflexivity|].
  destruct (USIBR m =? T485_ESCAPE_BYTE); [reflexivity|].
  destruct (escape_pending m); [|reflexivity].
  destruct (USIBR m =? T485_ESCAPED_SYNC); [reflexivity|].
  destruct (USIBR m =? T485_ESCAPED_ESCAPE); reflexivity.
Qed.

(** The flags after an overflow interrupt: only the receive branch at the
    escape byte writes them, and it ors the escape flag in. *)
Lemma ISR_USI_OVF_flags (m : machine) :
  flags (fst (ISR_USI_OVF m)) = flags m \/
  (state m = T485_STATE_RECV /\ USIBR m = T485_ESCAPE_BYTE /\
   flags (fst (ISR_USI_OVF m)) = u8 (Z.lor (flags m) T485_FLAG_ESCAPE)).
Proof.
  unfold ISR_USI_OVF. destruct (state m) eqn:Hs; try (left; reflexivity).
  rewrite recv_dispatch_flags. cbn [USIBR PCINT0_OFF set_GIMSK set_buf
    set_state TIM0_OFF set_TCCR0B USI_OFF set_USICR flags].
  destruct (USIBR m =? T485_SYNC_BYTE); cbn [negb andb]; [left; reflexivity|].
  destruct (Z.eqb_spec (USIBR m) T485_ESCAPE_BYTE) as [He|He];
    [right; auto | left; reflexivity].
Qed.

Lemma or_escape_flag_bit (f : Z) :
  Z.testbit (u8 (Z.lor f T485_FLAG_ESCAPE)) 0 = true.
Proof.
  rewrite u8_testbit, Z.lor_spec by lia.
  change (Z.testbit T485_FLAG_ESCAPE 0) with true.
  now rewrite orb_true_r.
Qed.

(** The escape flag is set only by a receive event whose byte is the
    escape byte. *)
Lemma escape_flag_set_only_by_escape_byte (m : machine) :
  escape_pending m = false ->
  escape_pending (fst (ISR_USI_OVF m)) = true ->
  state m = T485_STATE_RECV /\ USIBR m = T485_ESCAPE_BYTE.
Proof.
  intros Hclear Hset.
  destruct (ISR_USI_OVF_flags m) as [Hsame | (Hs & Hb & _)]; [|auto].
  rewrite escape_pending_bit in *. rewrite Hsame in Hset. congruence.
Qed.

(** C2: the escape-pending flag, once set, is still set at the end of every
    overflow interrupt: tiny485.c sets the flag at the escape byte and has
    no statement that clears it, so the receive event that follows an
    escape byte ends with the flag set, whatever the received byte is. *)
Theorem escape_flag_never_cleared (m : machine) :
  escape_pending m = true ->
  escape_pending (fst (ISR_USI_OVF m)) = true.
Proof.
  intros Hset. rewrite escape_pending_bit in *.
  destruct (ISR_USI_OVF_flags m) as [Hsame | (_ & _ & Hor)].
  - now rewrite Hsame.
  - rewrite Hor. apply or_escape_flag_bit.
Qed.

Lemma escape_flag_never_cleared_witness :
  escape_pending escaped_sync_pending = true /\
  escape_pending (fst (ISR_USI_OVF escaped_sync_pending)) = true.
Proof.
  split.
  - reflexivity.
  - apply (escape_flag_never_cleared escaped_sync_pending). reflexivity.
Defined.

(** *** After a received byte *)

(** C9: in the receive branch a wire byte equal to the sync byte (0xFF)
    gives the sync_received notification and no byte_received, whatever the
    escape flag is: the switch tests for the sync byte before the flag. *)
Theorem sync_byte_is_always_a_sync_event (m : machine) :
  state m = T485_STATE_RECV ->
  USIBR m = T485_SYNC_BYTE ->
  snd (ISR_USI_OVF m) = [sync_received].
Proof.
  intros Hs Hb. unfold ISR_USI_OVF. rewrite Hs. unfold recv_dispatch.
  cbn [USIBR PCINT0_OFF set_GIMSK set_buf set_state TIM0_OFF set_TCCR0B
       USI_OFF set_USICR].
  rewrite Hb, Z.eqb_refl. reflexivity.
Qed.

Lemma sync_byte_is_always_a_sync_event_witness :
  escape_pending sync_while_escape_pending = true /\
  snd (ISR_USI_OVF sync_while_escape_pending) = [sync_received].
Proof.
  split.
  - reflexivity.
  - apply (sync_byte_is_always_a_sync_event sync_while_escape_pending);
      reflexivity.
Defined.

(** The events of a receive event, by the wire byte and the escape flag. *)
Lemma recv_events (m : machine) :
  state m = T485_STATE_RECV ->
  snd (ISR_USI_OVF m) =
    if USIBR m =? T485_SYNC_BYTE then [sync_received]
    else if USIBR m =? T485_ESCAPE_BYTE then []
    else if escape_pending m then
      if USIBR m =? T485_ESCAPED_SYNC then [byte_received T485_SYNC_BYTE]
      else if USIBR m =? T485_ESCAPED_ESCAPE then [byte_received T485_ESCAPE_BYTE]
      else [byte_received (USIBR m)]
    else [byte_received (USIBR m)].
Proof.
  intros Hs. unfold ISR_USI_OVF. rewrite Hs. unfold recv_dispatch, escape_pending.
  cbn [USIBR flags PCINT0_OFF set_GIMSK set_buf set_state TIM0_OFF set_TCCR0B
       USI_OFF set_USICR].
  destruct (USIBR m =? T485_SYNC_BYTE); [reflexivity|].
  destruct (USIBR m =? T485_ESCAPE_BYTE); [reflexivity|].
  destruct (negb (Z.land (flags m) T485_FLAG_ESCAPE =? 0)); [|reflexivity].
  destruct (USIBR m =? T485_ESCAPED_SYNC); [reflexivity|].
  destruct (USIBR m =? T485_ESCAPED_ESCAPE); reflexivity.
Qed.

Lemma pcint0_off_bit (g : Z) : Z.testbit (u8 (Z.land g 0xDF)) 5 = false.
Proof.
  rewrite u8_testbit, Z.land_spec by lia.
  change (Z.testbit 0xDF 5) with false.
  now rewrite andb_false_r, andb_false_r.
Qed.

Lemma pcint0_on_bit (g : Z) : Z.testbit (u8 (Z.lor g 0x20)) 5 = true.
Proof.
  rewrite u8_testbit, Z.lor_spec by lia.
  change (Z.testbit 0x20 5) with true.
  now rewrite orb_true_r.
Qed.

(** C7: a shift-register overflow in the receive state turns the USI and
    the timer off, returns to idle and decodes the byte, but it runs
    PCINT0_OFF: the pin-change (edge) interrupt is disabled when the
    handler ends, not re-enabled. *)
Theorem recv_complete_leaves_pcint0_off (m : machine) :
  state m = T485_STATE_RECV ->
  state (fst (ISR_USI_OVF m)) = T485_STATE_IDLE /\
  GIMSK (fst (ISR_USI_OVF m)) = u8 (Z.land (GIMSK m) 0xDF) /\
  pcint0_enabled (fst (ISR_USI_OVF m)) = false.
Proof.
  intros Hs. unfold pcint0_enabled, ISR_USI_OVF. rewrite Hs.
  match goal with |- context [recv_dispatch ?x] =>
    destruct (recv_dispatch_frame x) as (Hst & _ & Hg & _) end.
  rewrite Hst, Hg.
  cbn [state GIMSK PCINT0_OFF set_GIMSK set_buf set_state TIM0_OFF set_TCCR0B
       USI_OFF set_USICR].
  repeat split. apply pcint0_off_bit.
Qed.

Lemma recv_complete_leaves_pcint0_off_witness :
  state (fst (ISR_USI_OVF data_byte_received)) = T485_STATE_IDLE /\
  GIMSK (fst (ISR_USI_OVF data_byte_received))
  = u8 (Z.land (GIMSK data_byte_received) 0xDF) /\
  pcint0_enabled (fst (ISR_USI_OVF data_byte_received)) = false.
Proof.
  apply (recv_complete_leaves_pcint0_off data_byte_received). reflexivity.
Defined.

(** Of the three handlers only the pin-change one leaves the idle state:
    with that interrupt masked an idle node does not start a reception. *)
Lemma only_pin_change_leaves_idle (m : machine) :
  state m = T485_STATE_IDLE ->
  state (fst (ISR_USI_OVF m)) = T485_STATE_IDLE /\
  state (fst (ISR_TIM0_COMPA m)) = T485_STATE_IDLE.
Proof.
  intros Hs. unfold ISR_USI_OVF, ISR_TIM0_COMPA. rewrite Hs. auto.
Qed.

(** *** After a transmitted byte *)

Lemma timer0_off_bits (t : Z) : Z.land (u8 (Z.land t 0xF8)) 0x07 = 0.
Proof.
  rewrite u8_land, <- !Z.land_assoc.
  change (Z.land 0xF8 (Z.land 0xFF 0x07)) with 0. apply Z.land_0_r.
Qed.

(** C8 as the code has it: a shift-register overflow in the second transmit
    state turns the USI off, stops the byte-clock timer, returns to idle and
    calls byte_sent; it leaves the line-driver port and the pin-change mask
    as they were.  Taking the driver off the bus and re-enabling the
    pin-change interrupt is what end_transmission does, which the handler
    does not call. *)
Theorem xmit2_complete_effects (DEN : Z) (m : machine) :
  state m = T485_STATE_XMIT2 ->
  0 <= DEN < 8 ->
  state (fst (ISR_USI_OVF m)) = T485_STATE_IDLE /\
  timer0_running (fst (ISR_USI_OVF m)) = false /\
  USICR (fst (ISR_USI_OVF m)) = u8 (Z.land (USICR m) 0xC3) /\
  snd (ISR_USI_OVF m) = [byte_sent] /\
  DEN_PORT (fst (ISR_USI_OVF m)) = DEN_PORT m /\
  GIMSK (fst (ISR_USI_OVF m)) = GIMSK m /\
  driver_enabled DEN (end_transmission DEN m) = false /\
  pcint0_enabled (end_transmission DEN m) = true.
Proof.
  intros Hs HDEN. unfold ISR_USI_OVF. rewrite Hs.
  unfold timer0_running, driver_enabled, pcint0_enabled, end_transmission.
  cbn [fst snd state TCCR0B USICR DEN_PORT GIMSK USISR PCINT0_ON set_GIMSK
       set_DEN_PORT set_USISR set_state TIM0_OFF set_TCCR0B USI_OFF set_USICR].
  rewrite timer0_off_bits, pcint0_on_bit.
  repeat split.
  rewrite u8_testbit, Z.land_spec, Z.lnot_spec by lia.
  unfold _BV. rewrite one_shl_testbit, Z.eqb_refl by lia.
  now rewrite andb_false_r, andb_false_r.
Qed.

Lemma xmit2_complete_effects_witness :
  state (fst (ISR_USI_OVF second_half_going_out)) = T485_STATE_IDLE /\
  timer0_running (fst (ISR_USI_OVF second_half_going_out)) = false /\
  USICR (fst (ISR_USI_OVF second_half_going_out))
  = u8 (Z.land (USICR second_half_going_out) 0xC3) /\
  snd (ISR_USI_OVF second_half_going_out) = [byte_sent] /\
  DEN_PORT (fst (ISR_USI_OVF second_half_going_out))
  = DEN_PORT second_half_going_out /\
  GIMSK (fst (ISR_USI_OVF second_half_going_out)) = GIMSK second_half_going_out /\
  driver_enabled 3 (end_transmission 3 second_half_going_out) = false /\
  pcint0_enabled (end_transmission 3 second_half_going_out) = true.
Proof.
  apply (xmit2_complete_effects 3 second_half_going_out); [reflexivity | lia].
Defined.

(** C8 as stated fails: after the overflow in the second transmit state the
    driver port still has every pin high (the line driver is still
    enabled, whichever pin DEN is) and the pin-change interrupt is still
    masked. *)
Lemma xmit2_keeps_driver_and_mask :
  state second_half_going_out = T485_STATE_XMIT2 /\
  DEN_PORT (fst (ISR_USI_OVF second_half_going_out)) = 0xFF /\
  driver_enabled 3 (fst (ISR_USI_OVF second_half_going_out)) = true /\
  pcint0_enabled (fst (ISR_USI_OVF second_half_going_out)) = false.
Proof. repeat split. Qed.

(** *** The send path against the receive decoder *)

(** The line bits of a byte: a start bit, the byte from bit 7 down to
    bit 0, a stop bit.  Nothing else goes out, whatever the byte is. *)
Lemma xmit_byte_line (b : Z) :
  is_u8 b ->
  fst (xmit_byte b idle_machine)
  = false :: map (Z.testbit b) [7; 6; 5; 4; 3; 2; 1; 0] ++ [true].
Proof.
  intros Hb. apply bits_eqb_eq.
  apply (forall_bytes (fun b => bits_eqb (fst (xmit_byte b idle_machine))
    (false :: map (Z.testbit b) [7; 6; 5; 4; 3; 2; 1; 0] ++ [true])));
    [vm_compute; reflexivity | exact Hb].
Qed.

(** C1: what the code's send path and receive decoder do to every byte.
    send_byte puts the byte on the line as it is, the two sentinels
    included; the listener then reports a sync for 0xFF, swallows 0x55 as an
    escape prefix, and delivers every other byte.  So the round trip holds
    for every byte but the two that the escape codec is there for. *)
Theorem send_byte_loopback (b : Z) :
  is_u8 b ->
  loopback b =
    if b =? T485_SYNC_BYTE then [sync_received]
    else if b =? T485_ESCAPE_BYTE then []
    else [byte_received b].
Proof.
  intros Hb. apply events_eqb_eq.
  apply (forall_bytes (fun b => events_eqb (loopback b)
    (if b =? T485_SYNC_BYTE then [sync_received]
     else if b =? T485_ESCAPE_BYTE then []
     else [byte_received b]))); [vm_compute; reflexivity | exact Hb].
Qed.

Lemma send_byte_loopback_witness :
  is_u8 T485_SYNC_BYTE /\ loopback T485_SYNC_BYTE = [sync_received].
Proof.
  split.
  - unfold is_u8, T485_SYNC_BYTE. lia.
  - apply (send_byte_loopback T485_SYNC_BYTE). unfold is_u8, T485_SYNC_BYTE. lia.
Defined.

Lemma recv_stream_cons (w : Z) (ws : list Z) (m : machine) :
  snd (recv_stream (w :: ws) m)
  = snd (recv_event w m) ++ snd (recv_stream ws (fst (recv_event w m))).
Proof.
  cbn [recv_stream]. destruct (recv_event w m) as [m1 e1].
  cbn [fst snd]. destruct (recv_stream ws m1) as [m2 e2]. reflexivity.
Qed.

Lemma recv_event_events (w : Z) (m : machine) :
  snd (recv_event w m) =
    if w =? T485_SYNC_BYTE then [sync_received]
    else if w =? T485_ESCAPE_BYTE then []
    else if escape_pending m then
      if w =? T485_ESCAPED_SYNC then [byte_received T485_SYNC_BYTE]
      else if w =? T485_ESCAPED_ESCAPE then [byte_received T485_ESCAPE_BYTE]
      else [byte_received w]
    else [byte_received w].
Proof. unfold recv_event. now rewrite recv_events. Qed.

Lemma recv_event_escape_byte (m : machine) :
  escape_pending (fst (recv_event T485_ESCAPE_BYTE m)) = true.
Proof.
  rewrite escape_pending_bit. unfold recv_event, ISR_USI_OVF.
  cbn [state set_USIBR set_state].
  rewrite recv_dispatch_flags.
  cbn [USIBR flags PCINT0_OFF set_GIMSK set_buf set_state TIM0_OFF set_TCCR0B
       USI_OFF set_USICR set_USIBR].
  change (negb (T485_ESCAPE_BYTE =? T485_SYNC_BYTE)
          && (T485_ESCAPE_BYTE =? T485_ESCAPE_BYTE))%bool with true.
  cbn iota. apply or_escape_flag_bit.
Qed.

(** The receive decoder does undo the escaping the header of the file
    describes: escape byte then substitute code gives the sentinel back. *)
Lemma recv_stream_decodes_escapes (m : machine) :
  snd (recv_stream [T485_ESCAPE_BYTE; T485_ESCAPED_SYNC] m)
  = [byte_received T485_SYNC_BYTE] /\
  snd (recv_stream [T485_ESCAPE_BYTE; T485_ESCAPED_ESCAPE] m)
  = [byte_received T485_ESCAPE_BYTE].
Proof.
  rewrite !recv_stream_cons, !recv_event_events, recv_event_escape_byte.
  split; reflexivity.
Qed.

(** With the flag never cleared, the bytes after the first escape pair are
    still decoded as escaped: the wire bytes 55 01 00 give 0x55 and then
    0xFF where 0x00 was sent. *)
Lemma recv_stream_after_escape :
  snd (recv_stream [T485_ESCAPE_BYTE; T485_ESCAPED_ESCAPE; 0x00] idle_machine)
  = [byte_received T485_ESCAPE_BYTE; byte_received T485_SYNC_BYTE].
Proof. reflexivity. Qed.

(** *** bit_reverse, bit by bit *)

Lemma is_u8_of_bits (x : Z) :
  (forall j, 0 <= j -> 8 <= j -> Z.testbit x j = false) -> is_u8 x.
Proof.
  intros H. unfold is_u8.
  assert (E : x = x mod 2 ^ 8).
  { apply Z.bits_inj'. intros j Hj. rewrite Z.testbit_mod_pow2 by lia.
    destruct (Z.ltb_spec j 8); cbn [andb]; [reflexivity | now apply H]. }
  rewrite E. change 256 with (2 ^ 8). apply Z.mod_pos_bound. lia.
Qed.


(** The result of bit_reverse is a byte whose bit [j] is bit [7 - j] of
    the argument: bit 0 goes to bit 7 and bit 7 to bit 0. *)
Theorem bit_reverse_bits (b : Z) :
  is_u8 (bit_reverse b) /\
  forall j, 0 <= j < 8 -> Z.testbit (bit_reverse b) j = Z.testbit b (7 - j).
Proof.
  split.
  - apply is_u8_of_bits. intros j Hj Hj8.
    rewrite bit_reverse_testbit by lia.
    replace (j <=? 7) with false by (symmetry; apply Z.leb_gt; lia).
    reflexivity.
  - intros j Hj. rewrite bit_reverse_testbit by lia.
    replace (j <=? 7) with true by (symmetry; apply Z.leb_le; lia).
    reflexivity.
Qed.

(** *** begin_transmission and end_transmission *)

Lemma forall_pins (P : Z -> bool) :
  forallb P all_pins = true -> forall k, 0 <= k < 8 -> P k = true.
Proof.
  intros H k Hk. rewrite forallb_forall in H. apply H.
  unfold all_pins.
  assert (C : k = 0 \/ k = 1 \/ k = 2 \/ k = 3 \/ k = 4 \/ k = 5 \/ k = 6 \/ k = 7)
    by lia.
  cbn [In]. intuition auto.
Qed.

(** Setting a pin of a port and clearing it again gives the port back when
    the pin was clear. *)
Lemma set_clear_pin (k p : Z) :
  0 <= k < 8 -> is_u8 p -> Z.testbit p k = false ->
  u8 (Z.land (u8 (Z.lor p (_BV k))) (Z.lnot (_BV k))) = p.
Proof.
  intros Hk Hp Hbit. apply Z.eqb_eq.
  pose (P := fun k p => Z.testbit p k
    || (u8 (Z.land (u8 (Z.lor p (_BV k))) (Z.lnot (_BV k))) =? p)).
  assert (Hall : forallb (P k) all_bytes = true).
  { apply (forall_pins (fun k => forallb (P k) all_bytes));
      [vm_compute; reflexivity | exact Hk]. }
  pose proof (forall_bytes (P k) Hall p Hp) as H.
  unfold P in H. rewrite Hbit in H. exact H.
Qed.


Lemma mask_unmask_pcint0 (g : Z) :
  is_u8 g -> Z.testbit g 5 = true ->
  u8 (Z.lor (u8 (Z.land g 0xDF)) 0x20) = g.
Proof.
  intros Hg Hbit. apply Z.eqb_eq.
  pose (P := fun g => negb (Z.testbit g 5)
    || (u8 (Z.lor (u8 (Z.land g 0xDF)) 0x20) =? g)).
  assert (H : P g = true)
    by (apply forall_bytes; [vm_compute; reflexivity | exact Hg]).
  unfold P in H. rewrite Hbit in H. exact H.
Qed.

(** begin_transmission drives the enable pin high and masks the pin-change
    interrupt; the other pins of the driver port, the state and the shift
    register are as before. *)
Theorem begin_transmission_effects (DEN : Z) (m : machine) :
  0 <= DEN < 8 ->
  driver_enabled DEN (begin_transmission DEN m) = true /\
  pcint0_enabled (begin_transmission DEN m) = false /\
  (forall j, 0 <= j < 8 -> j <> DEN ->
     Z.testbit (DEN_PORT (begin_transmission DEN m)) j
     = Z.testbit (DEN_PORT m) j) /\
  state (begin_transmission DEN m) = state m /\
  USIDR (begin_transmission DEN m) = USIDR m /\
  USICR (begin_transmission DEN m) = USICR m.
Proof.
  intros HDEN. unfold driver_enabled, pcint0_enabled, begin_transmission.
  cbn [DEN_PORT GIMSK state USIDR USICR PCINT0_OFF set_GIMSK set_DEN_PORT].
  repeat split.
  - rewrite u8_testbit, Z.lor_spec by lia. unfold _BV.
    rewrite one_shl_testbit, Z.eqb_refl by lia.
    replace (DEN <? 8) with true by (symmetry; apply Z.ltb_lt; lia).
    now rewrite orb_true_r.
  - apply pcint0_off_bit.
  - intros j Hj Hne. rewrite u8_testbit, Z.lor_spec by lia. unfold _BV.
    rewrite one_shl_testbit by lia.
    replace (j <? 8) with true by (symmetry; apply Z.ltb_lt; lia).
    replace (j =? DEN) with false by (symmetry; apply Z.eqb_neq; lia).
    now rewrite orb_false_r.
Qed.

Lemma begin_transmission_effects_witness :
  driver_enabled 3 (begin_transmission 3 before_transmission) = true /\
  pcint0_enabled (begin_transmission 3 before_transmission) = false /\
  (forall j, 0 <= j < 8 -> j <> 3 ->
     Z.testbit (DEN_PORT (begin_transmission 3 before_transmission)) j
     = Z.testbit (DEN_PORT before_transmission) j) /\
  state (begin_transmission 3 before_transmission) = state before_transmission /\
  USIDR (begin_transmission 3 before_transmission) = USIDR before_transmission /\
  USICR (begin_transmission 3 before_transmission) = USICR before_transmission.
Proof.
  apply (begin_transmission_effects 3 before_transmission). lia.
Defined.

(** end_transmission undoes begin_transmission: on a machine with the
    driver off and the pin-change interrupt on, the two calls in a row give
    the machine back. *)
Theorem end_after_begin_transmission (DEN : Z) (m : machine) :
  0 <= DEN < 8 ->
  is_u8 (DEN_PORT m) -> is_u8 (GIMSK m) ->
  driver_enabled DEN m = false ->
  pcint0_enabled m = true ->
  end_transmission DEN (begin_transmission DEN m) = m.
Proof.
  intros HDEN Hp Hg Hoff Hon.
  unfold driver_enabled, pcint0_enabled in *.
  destruct m as [st fl bf dr sr br cr tc tn g p up].
  unfold end_transmission, begin_transmission, PCINT0_ON, PCINT0_OFF.
  cbn [DEN_PORT GIMSK set_GIMSK set_DEN_PORT state flags buf USIDR USISR USIBR
       USICR TCCR0B TCNT0 USI_PORT] in *.
  rewrite set_clear_pin, mask_unmask_pcint0 by assumption.
  reflexivity.
Qed.

Lemma end_after_begin_transmission_witness :
  driver_enabled 3 before_transmission = false /\
  pcint0_enabled before_transmission = true /\
  end_transmission 3 (begin_transmission 3 before_transmission)
  = before_transmission.
Proof.
  split; [reflexivity|]. split; [reflexivity|].
  apply (end_after_begin_transmission 3 before_transmission);
    try reflexivity; unfold is_u8; cbn; lia.
Defined.

(** *** One byte on the line *)

Lemma usicounter_low (x n : Z) :
  0 <= n < 16 -> Z.land (u8 (Z.lor (Z.land x 0xF0) n)) 0x0F = n.
Proof.
  intros Hn. rewrite u8_land, <- Z.land_assoc.
  change (Z.land 0xFF 0x0F) with 0x0F.
  rewrite Z.land_lor_distr_l, <- Z.land_assoc.
  change (Z.land 0xF0 0x0F) with 0. rewrite Z.land_0_r, Z.lor_0_l.
  change 0x0F with (Z.ones 4). rewrite Z.land_ones by lia.
  apply Z.mod_small. change (2 ^ 4) with 16. lia.
Qed.

Lemma usi_clocks_usicounter (n : Z) (m : machine) :
  0 <= n < 16 -> usi_clocks (USICOUNTER n m) = Z.to_nat (16 - n).
Proof.
  intros Hn. unfold usi_clocks, USICOUNTER. cbn [USISR set_USISR].
  now rewrite usicounter_low.
Qed.

(** The ten line bits of a byte, from the two shift register loads. *)
Lemma line_bits_of_byte (b : Z) :
  is_u8 b ->
  usi_shift_out 5 (Z.shiftr b 1)
    ++ usi_shift_out 5 (u8 (Z.lor (Z.shiftl b 4) 0x0F))
  = false :: map (Z.testbit b) [7; 6; 5; 4; 3; 2; 1; 0] ++ [true].
Proof.
  intros Hb. apply bits_eqb_eq.
  apply (forall_bytes (fun b => bits_eqb
    (usi_shift_out 5 (Z.shiftr b 1)
       ++ usi_shift_out 5 (u8 (Z.lor (Z.shiftl b 4) 0x0F)))
    (false :: map (Z.testbit b) [7; 6; 5; 4; 3; 2; 1; 0] ++ [true])));
    [vm_compute; reflexivity | exact Hb].
Qed.

Lemma xmit_byte_parts (b : Z) (m : machine) :
  is_u8 b ->
  fst (xmit_byte b m)
  = false :: map (Z.testbit b) [7; 6; 5; 4; 3; 2; 1; 0] ++ [true] /\
  state (fst (snd (xmit_byte b m))) = T485_STATE_IDLE /\
  snd (snd (xmit_byte b m)) = [byte_sent].
Proof.
  intros Hb. unfold xmit_byte.
  assert (H1 : ISR_USI_OVF (send_byte b m)
           = (set_state T485_STATE_XMIT2
                (USICOUNTER T485_XMIT_SEED
                   (set_USIDR (buf (send_byte b m))
                      (set_USISR
                         (u8 (Z.lor (USISR (send_byte b m)) (_BV USIOIF)))
                         (send_byte b m)))), [])) by reflexivity.
  rewrite H1.
  match goal with
  | |- context [ISR_USI_OVF (set_state T485_STATE_XMIT2 ?x)] =>
      assert (H2 : ISR_USI_OVF (set_state T485_STATE_XMIT2 x)
                = (set_state T485_STATE_IDLE
                     (TIM0_OFF (USI_OFF
                        (set_USISR
                           (u8 (Z.lor (USISR (set_state T485_STATE_XMIT2 x))
                                  (_BV USIOIF)))
                           (set_state T485_STATE_XMIT2 x)))), [byte_sent]))
        by reflexivity;
      rewrite H2
  end.
  cbn [fst snd app].
  repeat split.
  replace (usi_clocks (send_byte b m)) with 5%nat.
  - replace (usi_clocks _) with 5%nat.
    + apply (line_bits_of_byte b Hb).
    + symmetry. apply (usi_clocks_usicounter T485_XMIT_SEED).
      unfold T485_XMIT_SEED. lia.
  - symmetry.
    apply (usi_clocks_usicounter T485_XMIT_SEED
             (set_USIDR (Z.shiftr b 1) m)).
    unfold T485_XMIT_SEED. lia.
Qed.

(** send_byte and the two overflow interrupts after it put one frame on
    the line, whatever the machine was before: a start bit (0), the byte
    from bit 7 down to bit 0, a stop bit (1).  They end in the idle state
    with byte_sent called once. *)
Theorem send_byte_frame (b : Z) (m : machine) :
  is_u8 b ->
  fst (xmit_byte b m)
  = false :: map (Z.testbit b) [7; 6; 5; 4; 3; 2; 1; 0] ++ [true] /\
  state (fst (snd (xmit_byte b m))) = T485_STATE_IDLE /\
  snd (snd (xmit_byte b m)) = [byte_sent].
Proof. intros Hb. destruct (xmit_byte_parts b m Hb) as (H1 & H2 & H3). auto. Qed.

Lemma send_byte_frame_witness :
  is_u8 0x55 /\
  fst (xmit_byte 0x55 second_half_going_out)
  = false :: map (Z.testbit 0x55) [7; 6; 5; 4; 3; 2; 1; 0] ++ [true] /\
  state (fst (snd (xmit_byte 0x55 second_half_going_out))) = T485_STATE_IDLE /\
  snd (snd (xmit_byte 0x55 second_half_going_out)) = [byte_sent].
Proof.
  split; [unfold is_u8; lia|].
  apply (send_byte_frame 0x55 second_half_going_out). unfold is_u8. lia.
Defined.


(** *** The receiving shift register *)







(** *** The pin-change interrupt *)

Lemma pcint0_start (DI : Z) (m : machine) :
  state m = T485_STATE_IDLE ->
  Z.land (USI_PORT m) (_BV DI) = 0 ->
  ISR_PCINT0 DI m
  = USI_ON (TIM0_ON (PCINT0_OFF (USICOUNTER T485_RECV_SEED
      (set_state T485_STATE_RECV (set_TCNT0 (T485_BIT_TIMER / 2) m))))).
Proof.
  intros Hs Hlow. unfold ISR_PCINT0. rewrite Hs, Hlow. reflexivity.
Qed.

Lemma timer0_on_running (t : Z) :
  negb (Z.land (u8 (Z.lor t 0x02)) 0x07 =? 0) = true.
Proof.
  apply negb_true_iff, Z.eqb_neq. intros H0.
  assert (Hb : Z.testbit (Z.land (u8 (Z.lor t 0x02)) 0x07) 1 = true).
  { rewrite Z.land_spec, u8_testbit, Z.lor_spec by lia.
    change (Z.testbit 2 1) with true. change (Z.testbit 7 1) with true.
    now rewrite orb_true_r. }
  rewrite H0, Z.bits_0 in Hb. discriminate.
Qed.

(** A falling edge on the data line while idle starts a reception: the
    handler enters the receive state, sets the bit timer to half a bit,
    arms the shift register for nine bits (start bit and eight data bits),
    starts the timer and masks the pin-change interrupt. *)
Theorem start_bit_arms_reception (DI : Z) (m : machine) :
  state m = T485_STATE_IDLE ->
  Z.land (USI_PORT m) (_BV DI) = 0 ->
  state (ISR_PCINT0 DI m) = T485_STATE_RECV /\
  TCNT0 (ISR_PCINT0 DI m) = 52 /\
  usi_clocks (ISR_PCINT0 DI m) = 9%nat /\
  timer0_running (ISR_PCINT0 DI m) = true /\
  pcint0_enabled (ISR_PCINT0 DI m) = false /\
  flags (ISR_PCINT0 DI m) = flags m.
Proof.
  intros Hs Hlow. rewrite (pcint0_start DI m Hs Hlow).
  repeat split.
  - apply (usi_clocks_usicounter T485_RECV_SEED). unfold T485_RECV_SEED. lia.
  - unfold timer0_running. apply timer0_on_running.
  - unfold pcint0_enabled. apply pcint0_off_bit.
Qed.

Lemma start_bit_arms_reception_witness :
  state (ISR_PCINT0 0 idle_machine) = T485_STATE_RECV /\
  TCNT0 (ISR_PCINT0 0 idle_machine) = 52 /\
  usi_clocks (ISR_PCINT0 0 idle_machine) = 9%nat /\
  timer0_running (ISR_PCINT0 0 idle_machine) = true /\
  pcint0_enabled (ISR_PCINT0 0 idle_machine) = false /\
  flags (ISR_PCINT0 0 idle_machine) = flags idle_machine.
Proof.
  apply (start_bit_arms_reception 0 idle_machine); reflexivity.
Defined.

(** The pin-change handler leaves a transfer in progress alone, and an
    idle node whose data line is high. *)
Lemma pin_change_ignored (DI : Z) (m : machine) :
  state m = T485_STATE_RECV \/ state m = T485_STATE_XMIT1 \/
  state m = T485_STATE_XMIT2 \/
  (state m = T485_STATE_IDLE /\ Z.land (USI_PORT m) (_BV DI) <> 0) ->
  ISR_PCINT0 DI m = m.
Proof.
  unfold ISR_PCINT0.
  intros [Hs | [Hs | [Hs | [Hs Hhigh]]]]; rewrite Hs; try reflexivity.
  destruct (Z.eqb_spec (Z.land (USI_PORT m) (_BV DI)) 0); [contradiction|].
  reflexivity.
Qed.


(** *** From a sender's send_byte to a listener's handlers *)





(** *** The decoder over a stream of wire bytes *)













(** *** Hunting for the init sequence *)

Lemma hunt_cons (s : Z) (samples : list Z) (m : machine) :
  hunt (s :: samples) m
  = (fst (hunt samples (fst (ISR_TIM0_COMPA (set_USIDR s m)))),
     snd (ISR_TIM0_COMPA (set_USIDR s m))
       ++ snd (hunt samples (fst (ISR_TIM0_COMPA (set_USIDR s m))))).
Proof.
  cbn [hunt]. destruct (ISR_TIM0_COMPA (set_USIDR s m)) as [m1 e1].
  cbn [fst snd]. destruct (hunt samples m1) as [m2 e2]. reflexivity.
Qed.

Lemma tick_init1 (s : Z) (m : machine) :
  state m = T485_STATE_INIT1 ->
  ISR_TIM0_COMPA (set_USIDR s m)
  = if s =? T485_INIT1
    then (set_USIDR 0 (set_state T485_STATE_INIT2 (set_USIDR s m)), [])
    else (set_USIDR s m, []).
Proof.
  intros Hs. unfold ISR_TIM0_COMPA. cbn [state USIDR set_USIDR]. now rewrite Hs.
Qed.

Lemma tick_init2 (s : Z) (m : machine) :
  state m = T485_STATE_INIT2 ->
  ISR_TIM0_COMPA (set_USIDR s m)
  = if s =? T485_INIT2
    then (set_state T485_STATE_IDLE (set_USIDR s m), [sync_received])
    else (set_USIDR s m, []).
Proof.
  intros Hs. unfold ISR_TIM0_COMPA. cbn [state USIDR set_USIDR]. now rewrite Hs.
Qed.

Lemma tick_other (s : Z) (m : machine) :
  state m <> T485_STATE_INIT1 -> state m <> T485_STATE_INIT2 ->
  ISR_TIM0_COMPA (set_USIDR s m) = (set_USIDR s m, []).
Proof.
  intros H1 H2. unfold ISR_TIM0_COMPA. cbn [state set_USIDR].
  destruct (state m); try reflexivity; contradiction.
Qed.

Lemma hunt_idle (samples : list Z) : forall m : machine,
  state m = T485_STATE_IDLE ->
  state (fst (hunt samples m)) = T485_STATE_IDLE /\ snd (hunt samples m) = [].
Proof.
  induction samples as [|s samples IH]; intros m Hs.
  - split; [exact Hs | reflexivity].
  - rewrite hunt_cons, tick_other by (rewrite Hs; discriminate).
    cbn [fst snd app]. apply IH. exact Hs.
Qed.

Lemma hunt_init2 (samples : list Z) : forall m : machine,
  state m = T485_STATE_INIT2 ->
  (In T485_INIT2 samples /\
   state (fst (hunt samples m)) = T485_STATE_IDLE /\
   snd (hunt samples m) = [sync_received]) \/
  (~ In T485_INIT2 samples /\
   state (fst (hunt samples m)) = T485_STATE_INIT2 /\
   snd (hunt samples m) = []).
Proof.
  induction samples as [|s samples IH]; intros m Hs.
  - right. cbn. auto.
  - rewrite hunt_cons, (tick_init2 s m Hs).
    destruct (Z.eqb_spec s T485_INIT2) as [->|Hne]; cbn [fst snd app].
    + left. split; [now left|].
      destruct (hunt_idle samples
                  (set_state T485_STATE_IDLE (set_USIDR T485_INIT2 m))
                  eq_refl) as [H1 H2].
      rewrite H1, H2. auto.
    + destruct (IH (set_USIDR s m) Hs) as [(Hin & H1 & H2) | (Hnin & H1 & H2)].
      * left. split; [now right | auto].
      * right. split; [|auto]. intros [Heq | Hin]; [congruence | contradiction].
Qed.

Lemma hunt_init1 (samples : list Z) : forall m : machine,
  state m = T485_STATE_INIT1 ->
  ((exists pre post, samples = pre ++ T485_INIT1 :: post /\
                     In T485_INIT2 post) /\
   state (fst (hunt samples m)) = T485_STATE_IDLE /\
   snd (hunt samples m) = [sync_received]) \/
  (~ (exists pre post, samples = pre ++ T485_INIT1 :: post /\
                       In T485_INIT2 post) /\
   state (fst (hunt samples m)) <> T485_STATE_IDLE /\
   snd (hunt samples m) = []).
Proof.
  induction samples as [|s samples IH]; intros m Hs.
  - right. cbn. split; [|split; [rewrite Hs; discriminate | reflexivity]].
    intros (pre & post & E & _). destruct pre; discriminate E.
  - rewrite hunt_cons, (tick_init1 s m Hs).
    destruct (Z.eqb_spec s T485_INIT1) as [->|Hne]; cbn [fst snd app].
    + destruct (hunt_init2 samples
                  (set_USIDR 0 (set_state T485_STATE_INIT2
                                  (set_USIDR T485_INIT1 m))) eq_refl)
        as [(Hin & H1 & H2) | (Hnin & H1 & H2)].
      * left. split; [|auto]. exists [], samples. auto.
      * right. split; [|split; [rewrite H1; discriminate | exact H2]].
        intros (pre & post & E & Hin). apply Hnin.
        destruct pre as [|x pre]; cbn in E;
          apply (f_equal (@tl Z)) in E; cbn [tl] in E; subst samples.
        -- exact Hin.
        -- apply in_or_app. right. now right.
    + destruct (IH (set_USIDR s m) Hs) as [(Hex & H1 & H2) | (Hnex & H1 & H2)].
      * left. split; [|auto]. destruct Hex as (pre & post & E & Hin).
        exists (s :: pre), post. subst. auto.
      * right. split; [|auto].
        intros (pre & post & E & Hin). apply Hnex.
        destruct pre as [|x pre]; cbn in E.
        -- apply (f_equal (hd 0)) in E. cbn [hd] in E. contradiction.
        -- apply (f_equal (@tl Z)) in E. cbn [tl] in E.
           exists pre, post. auto.
Qed.

(** Sync hunting succeeds exactly when the register shows the first
    pattern (0x7F) at some tick and the second pattern (0xC0) at a later
    one; sync_received is then called once, and otherwise not at all. *)
Theorem hunt_finds_sync_iff (samples : list Z) (m : machine) :
  state m = T485_STATE_INIT1 ->
  (state (fst (hunt samples m)) = T485_STATE_IDLE <->
   exists pre post, samples = pre ++ T485_INIT1 :: post /\ In T485_INIT2 post) /\
  snd (hunt samples m)
  = match state (fst (hunt samples m)) with
    | T485_STATE_IDLE => [sync_received]
    | _ => []
    end.
Proof.
  intros Hs.
  destruct (hunt_init1 samples m Hs) as [(Hex & H1 & H2) | (Hnex & H1 & H2)].
  - rewrite H1, H2. split; [tauto | reflexivity].
  - rewrite H2. split; [tauto|].
    destruct (state (fst (hunt samples m))); try reflexivity. contradiction.
Qed.

Lemma hunt_finds_sync_iff_witness :
  (state (fst (hunt [0xC0; 0x3F; 0x7F; 0x00; 0x80; 0xC0] hunting_machine))
   = T485_STATE_IDLE <->
   exists pre post,
     [0xC0; 0x3F; 0x7F; 0x00; 0x80; 0xC0] = pre ++ T485_INIT1 :: post /\
     In T485_INIT2 post) /\
  snd (hunt [0xC0; 0x3F; 0x7F; 0x00; 0x80; 0xC0] hunting_machine)
  = match state (fst (hunt [0xC0; 0x3F; 0x7F; 0x00; 0x80; 0xC0] hunting_machine)) with
    | T485_STATE_IDLE => [sync_received]
    | _ => []
    end.
Proof.
  apply (hunt_finds_sync_iff [0xC0; 0x3F; 0x7F; 0x00; 0x80; 0xC0]
           hunting_machine).
  reflexivity.
Defined.

(** *** tiny485_init *)

Lemma ddr_after_init (USI_DDR DEN_DDR DO DI DEN : Z) (sync : bool)
    (m : machine) (r : init_regs) :
  ddr (snd (tiny485_init USI_DDR DEN_DDR DO DI DEN sync (m, r))) USI_DDR
  = (if USI_DDR =? DEN_DDR
     then u8 (Z.lor (u8 (Z.land (u8 (Z.lor (ddr r USI_DDR) (_BV DO)))
                           (Z.lnot (_BV DI)))) (_BV DEN))
     else u8 (Z.land (u8 (Z.lor (ddr r USI_DDR) (_BV DO))) (Z.lnot (_BV DI))))
  /\
  ddr (snd (tiny485_init USI_DDR DEN_DDR DO DI DEN sync (m, r))) DEN_DDR
  = u8 (Z.lor
          (if DEN_DDR =? USI_DDR
           then u8 (Z.land (u8 (Z.lor (ddr r USI_DDR) (_BV DO)))
                      (Z.lnot (_BV DI)))
           else ddr r DEN_DDR)
          (_BV DEN)).
Proof.
  unfold tiny485_init, set_ddr. cbn [snd ddr].
  rewrite !Z.eqb_refl. rewrite (Z.eqb_sym DEN_DDR USI_DDR).
  destruct (USI_DDR =? DEN_DDR); split; reflexivity.
Qed.

Lemma pin_bit_set (x k : Z) :
  0 <= k < 8 -> Z.testbit (u8 (Z.lor x (_BV k))) k = true.
Proof.
  intros Hk. rewrite u8_testbit, Z.lor_spec by lia. unfold _BV.
  rewrite one_shl_testbit, Z.eqb_refl by lia.
  replace (k <? 8) with true by (symmetry; apply Z.ltb_lt; lia).
  now rewrite orb_true_r.
Qed.

Lemma pin_bit_set_other (x k j : Z) :
  0 <= k < 8 -> 0 <= j < 8 -> j <> k ->
  Z.testbit (u8 (Z.lor x (_BV k))) j = Z.testbit x j.
Proof.
  intros Hk Hj Hne. rewrite u8_testbit, Z.lor_spec by lia. unfold _BV.
  rewrite one_shl_testbit by lia.
  replace (j <? 8) with true by (symmetry; apply Z.ltb_lt; lia).
  replace (j =? k) with false by (symmetry; apply Z.eqb_neq; lia).
  now rewrite orb_false_r.
Qed.

Lemma pin_bit_cleared (x k : Z) :
  0 <= k < 8 -> Z.testbit (u8 (Z.land x (Z.lnot (_BV k)))) k = false.
Proof.
  intros Hk. rewrite u8_testbit, Z.land_spec, Z.lnot_spec by lia. unfold _BV.
  rewrite one_shl_testbit, Z.eqb_refl by lia.
  now rewrite andb_false_r, andb_false_r.
Qed.

Lemma pin_bit_cleared_other (x k j : Z) :
  0 <= k < 8 -> 0 <= j < 8 -> j <> k ->
  Z.testbit (u8 (Z.land x (Z.lnot (_BV k)))) j = Z.testbit x j.
Proof.
  intros Hk Hj Hne. rewrite u8_testbit, Z.land_spec, Z.lnot_spec by lia.
  unfold _BV. rewrite one_shl_testbit by lia.
  replace (j <? 8) with true by (symmetry; apply Z.ltb_lt; lia).
  replace (j =? k) with false by (symmetry; apply Z.eqb_neq; lia).
  now rewrite andb_true_r.
Qed.

(** tiny485_init leaves the node idle (hunting under REQUIRE_SYNC) with the
    timer running, the pin-change interrupt and the global interrupt flag
    on, DO and DEN outputs and DI an input, for distinct pins and whether
    or not the pin header puts DEN on the USI's port.  It does not reset
    the escape flag or the byte buffer. *)
Theorem tiny485_init_effects (USI_DDR DEN_DDR DO DI DEN : Z) (sync : bool)
    (m : machine) (r : init_regs) :
  0 <= DO < 8 -> 0 <= DI < 8 -> 0 <= DEN < 8 -> DO <> DI -> DEN <> DI ->
  let m' := fst (tiny485_init USI_DDR DEN_DDR DO DI DEN sync (m, r)) in
  let r' := snd (tiny485_init USI_DDR DEN_DDR DO DI DEN sync (m, r)) in
  state m' = (if sync then T485_STATE_INIT1 else T485_STATE_IDLE) /\
  timer0_running m' = true /\
  pcint0_enabled m' = true /\
  sreg_i r' = true /\
  is_output USI_DDR DO r' = true /\
  is_output USI_DDR DI r' = false /\
  is_output DEN_DDR DEN r' = true /\
  flags m' = flags m /\ buf m' = buf m.
Proof.
  intros HDO HDI HDEN Hdo Hden. cbv zeta.
  destruct (ddr_after_init USI_DDR DEN_DDR DO DI DEN sync m r) as [Hu Hd].
  unfold is_output. rewrite Hu, Hd.
  split; [destruct sync; reflexivity|].
  split; [destruct sync; reflexivity|].
  split; [destruct sync; reflexivity|].
  split; [reflexivity|].
  split; [|split; [|split; [apply pin_bit_set; lia | destruct sync; auto]]].
  - destruct (USI_DDR =? DEN_DDR).
    + destruct (Z.eq_dec DO DEN) as [->|Hne]; [apply pin_bit_set; lia|].
      rewrite pin_bit_set_other, pin_bit_cleared_other by lia.
      apply pin_bit_set; lia.
    + rewrite pin_bit_cleared_other by lia. apply pin_bit_set; lia.
  - destruct (USI_DDR =? DEN_DDR).
    + rewrite pin_bit_set_other by lia. apply pin_bit_cleared; lia.
    + apply pin_bit_cleared; lia.
Qed.

Lemma tiny485_init_effects_witness :
  let m' := fst (tiny485_init 0x37 0x37 1 0 3 false
                   (escaped_sync_pending, reset_regs)) in
  let r' := snd (tiny485_init 0x37 0x37 1 0 3 false
                   (escaped_sync_pending, reset_regs)) in
  state m' = T485_STATE_IDLE /\
  timer0_running m' = true /\
  pcint0_enabled m' = true /\
  sreg_i r' = true /\
  is_output 0x37 1 r' = true /\
  is_output 0x37 0 r' = false /\
  is_output 0x37 3 r' = true /\
  flags m' = flags escaped_sync_pending /\ buf m' = buf escaped_sync_pending.
Proof.
  apply (tiny485_init_effects 0x37 0x37 1 0 3 false
           escaped_sync_pending reset_regs); lia.
Defined.

End Tiny485Facts.

Module SbpFacts.
Import Sbp.

Lemma sbp_state_eqb_eq (a b : sbp_state_t) :
  sbp_state_eqb a b = true <-> a = b.
Proof.
  split.
  - destruct a, b; cbn; intros H; try discriminate H; reflexivity.
  - intros ->. destruct b; reflexivity.
Qed.

Lemma sbp_idle_iff (d : data) : sbp_idle d = true <-> state d = SBP_IDLE.
Proof. apply sbp_state_eqb_eq. Qed.

(** *** sbp_send *)

(** C6: sbp_send takes effect only in the idle state.  There it fills the
    frame (sync byte, type, length = payload length + 6 header bytes + 1
    checksum byte in 16 bits, destination, this node's address as source,
    the payload pointer), sets the index to 0 and enters the transmit-header
    state; in every other state it leaves [_data] as it was. *)
Theorem sbp_send_idle_only (dst0 type0 length0 msg0 : Z) (d : data) :
  (state d = SBP_IDLE ->
   let d' := sbp_send dst0 type0 length0 msg0 d in
   state d' = SBP_XMIT_HEADER /\ index d' = 0 /\
   sync (frame d') = SBP_BYTE_SYNC /\
   type (frame d') = type0 /\
   length (frame d') = u16 (length0 + 6 + 1) /\
   (0 <= length0 < 65536 - 7 -> length (frame d') = length0 + 6 + 1) /\
   dst (frame d') = dst0 /\
   src (frame d') = address d /\
   payload (frame d') = msg0 /\
   address d' = address d) /\
  (state d <> SBP_IDLE -> sbp_send dst0 type0 length0 msg0 d = d).
Proof.
  split.
  - intros Hs. unfold sbp_send.
    rewrite (proj2 (sbp_state_eqb_eq _ _) Hs).
    cbn. repeat split.
    intros Hlen. unfold u16. apply Z.mod_small.
    unfold SBP_HEADER_LENGTH, SBP_CHECKSUM_LENGTH. lia.
  - intros Hs. unfold sbp_send.
    destruct (sbp_state_eqb (state d) SBP_IDLE) eqn:E; [|reflexivity].
    apply sbp_state_eqb_eq in E. contradiction.
Qed.

Lemma sbp_send_idle_only_witness :
  (let d' := sbp_send 0x02 0x10 3 0x60 (idle_data 0x01) in
   state d' = SBP_XMIT_HEADER /\ index d' = 0 /\
   sync (frame d') = SBP_BYTE_SYNC /\
   type (frame d') = 0x10 /\
   length (frame d') = 10 /\
   dst (frame d') = 0x02 /\
   src (frame d') = 0x01 /\
   payload (frame d') = 0x60) /\
  sbp_send 0x02 0x10 3 0x60 (synced_data 0x01) = synced_data 0x01.
Proof.
  destruct (sbp_send_idle_only 0x02 0x10 3 0x60 (idle_data 0x01)) as [Hidle _].
  destruct (sbp_send_idle_only 0x02 0x10 3 0x60 (synced_data 0x01)) as [_ Hbusy].
  split.
  - destruct (Hidle eq_refl) as (H1 & H2 & H3 & H4 & H5 & _ & H7 & H8 & H9 & _).
    repeat split; assumption.
  - apply Hbusy. discriminate.
Defined.

(** *** The transmit stages *)

(** No overflow interrupt in a transmit stage writes the index. *)
Lemma xmit_keeps_index (d : data) :
  state d = SBP_XMIT_HEADER \/ state d = SBP_XMIT_PAYLOAD \/
  state d = SBP_XMIT_CHECKSUM ->
  index (fst (ISR_USI_OVF d)) = index d.
Proof.
  unfold ISR_USI_OVF, xmit_header.
  intros [Hs | [Hs | Hs]]; rewrite Hs.
  - repeat match goal with
           | |- context [if ?c then _ else _] => destruct c
           end; reflexivity.
  - destruct (index d =? u16 (size d + SBP_HEADER_LENGTH)); reflexivity.
  - reflexivity.
Qed.

Lemma xmit_header_at_zero (d : data) :
  state d = SBP_XMIT_HEADER -> index d = 0 ->
  ISR_USI_OVF d = (set_USIBR (sync (frame d)) d, []).
Proof.
  intros Hs Hi. unfold ISR_USI_OVF, xmit_header. now rewrite Hs, Hi.
Qed.

(** C4: every byte-sent interrupt in the transmit-header stage with the
    index at 0 leaves the index at 0 and loads the sync byte again: after
    the k-th of them (k = n + 1) the byte loaded is the sync byte, not the
    k-th byte of the frame. *)
Theorem xmit_header_repeats_sync (n : nat) : forall d : data,
  state d = SBP_XMIT_HEADER -> index d = 0 ->
  state (fst (overflows (S n) d)) = SBP_XMIT_HEADER /\
  index (fst (overflows (S n) d)) = 0 /\
  frame (fst (overflows (S n) d)) = frame d /\
  USIBR (fst (overflows (S n) d)) = sync (frame d).
Proof.
  induction n as [|n IH]; intros d Hs Hi.
  - cbn [overflows]. rewrite (xmit_header_at_zero d Hs Hi). cbn. auto.
  - change (overflows (S (S n)) d)
      with (let (d1, c1) := ISR_USI_OVF d in
            let (d2, c2) := overflows (S n) d1 in (d2, c1 ++ c2)).
    rewrite (xmit_header_at_zero d Hs Hi).
    destruct (IH (set_USIBR (sync (frame d)) d) Hs Hi) as (H1 & H2 & H3 & H4).
    destruct (overflows (S n) (set_USIBR (sync (frame d)) d)) as [d2 c2].
    cbn [fst] in *. auto.
Qed.

Lemma xmit_header_repeats_sync_witness :
  let d := sbp_send 0x02 0x10 3 0x60 (idle_data 0x01) in
  type (frame d) = 0x10 /\
  state (fst (overflows 2 d)) = SBP_XMIT_HEADER /\
  index (fst (overflows 2 d)) = 0 /\
  frame (fst (overflows 2 d)) = frame d /\
  USIBR (fst (overflows 2 d)) = 0xAA.
Proof.
  split; [reflexivity|].
  apply (xmit_header_repeats_sync 1
           (sbp_send 0x02 0x10 3 0x60 (idle_data 0x01))); reflexivity.
Defined.

(** *** The receive stages *)

(** From the header stage the handler only ever reaches the payload
    stage. *)
Lemma recv_step_stages (b : Z) (d : data) :
  state d = SBP_RECV_HEADER \/ state d = SBP_RECV_PAYLOAD ->
  state (fst (ISR_USI_OVF (set_USIBR b d))) = SBP_RECV_HEADER \/
  state (fst (ISR_USI_OVF (set_USIBR b d))) = SBP_RECV_PAYLOAD.
Proof.
  unfold ISR_USI_OVF. cbn [state set_USIBR].
  intros [Hs | Hs]; rewrite Hs.
  - unfold recv_header. cbn [index set_USIBR fst].
    repeat match goal with
           | |- context [if ?c then _ else _] => destruct c
           end; cbn; auto.
  - cbn. auto.
Qed.

Lemma receive_cons (b : Z) (bs : list Z) (d : data) :
  fst (receive (b :: bs) d)
  = fst (receive bs (fst (ISR_USI_OVF (set_USIBR b d)))).
Proof.
  cbn [receive]. destruct (ISR_USI_OVF (set_USIBR b d)) as [d1 c1].
  cbn [fst]. destruct (receive bs d1) as [d2 c2]. reflexivity.
Qed.

(** C3: a frame being received never puts the protocol into the ignore
    state and never returns it to idle, whatever its destination and however
    many bytes follow: from the header stage the handler is in the header
    or the payload stage after every byte. *)
Theorem recv_header_never_ignores (bs : list Z) : forall d : data,
  state d = SBP_RECV_HEADER \/ state d = SBP_RECV_PAYLOAD ->
  state (fst (receive bs d)) = SBP_RECV_HEADER \/
  state (fst (receive bs d)) = SBP_RECV_PAYLOAD.
Proof.
  induction bs as [|b bs IH]; intros d Hs.
  - exact Hs.
  - rewrite receive_cons. apply IH. now apply recv_step_stages.
Qed.

Lemma recv_header_never_ignores_witness :
  state (fst (receive [0x10; 0x0A; 0x00; 0x03; 0x01; 0xAA; 0x55; 0x00; 0xBD]
                (synced_data 0x02))) = SBP_RECV_HEADER \/
  state (fst (receive [0x10; 0x0A; 0x00; 0x03; 0x01; 0xAA; 0x55; 0x00; 0xBD]
                (synced_data 0x02))) = SBP_RECV_PAYLOAD.
Proof.
  apply (recv_header_never_ignores
           [0x10; 0x0A; 0x00; 0x03; 0x01; 0xAA; 0x55; 0x00; 0xBD]
           (synced_data 0x02)).
  left. reflexivity.
Defined.

(** The five header bytes after the sync lead to the payload stage with the
    destination stored, whatever this node's address is. *)
Lemma recv_header_reaches_payload (addr t l h dd ss : Z) :
  state (fst (receive [t; l; h; dd; ss] (synced_data addr))) = SBP_RECV_PAYLOAD /\
  dst (frame (fst (receive [t; l; h; dd; ss] (synced_data addr)))) = dd /\
  address (fst (receive [t; l; h; dd; ss] (synced_data addr))) = addr.
Proof. repeat split. Qed.

(** The payload, checksum and ignore stages are fixed points of the
    handler. *)
Lemma recv_stub_stages (d : data) :
  state d = SBP_RECV_PAYLOAD \/ state d = SBP_RECV_CHECKSUM \/
  state d = SBP_RECV_IGNORE ->
  ISR_USI_OVF d = (d, []).
Proof.
  unfold ISR_USI_OVF. intros [Hs | [Hs | Hs]]; now rewrite Hs.
Qed.

(** C5: an overflow interrupt in the checksum stage changes nothing and
    calls nothing, whether the received byte equals the checksum on record
    or not: the protocol stays in the checksum stage. *)
Theorem recv_checksum_stays (b : Z) (d : data) :
  state d = SBP_RECV_CHECKSUM ->
  ISR_USI_OVF (set_USIBR b d) = (set_USIBR b d, []) /\
  state (fst (ISR_USI_OVF (set_USIBR b d))) = SBP_RECV_CHECKSUM.
Proof.
  intros Hs.
  assert (H : ISR_USI_OVF (set_USIBR b d) = (set_USIBR b d, [])).
  { apply recv_stub_stages. right. left. exact Hs. }
  split; [exact H|]. rewrite H. exact Hs.
Qed.

Lemma recv_checksum_stays_witness :
  ISR_USI_OVF (set_USIBR 0xBD awaiting_checksum)
  = (set_USIBR 0xBD awaiting_checksum, []) /\
  state (fst (ISR_USI_OVF (set_USIBR 0xBD awaiting_checksum)))
  = SBP_RECV_CHECKSUM.
Proof.
  apply (recv_checksum_stays 0xBD awaiting_checksum). reflexivity.
Defined.

(** *** sbp_send and the busy state *)

(** After sbp_send the library is busy, whether the call took effect or
    not, so a second sbp_send right after it changes nothing. *)
Theorem sbp_send_then_busy (a t l p a' t' l' p' : Z) (d : data) :
  sbp_idle (sbp_send a t l p d) = false /\
  sbp_send a' t' l' p' (sbp_send a t l p d) = sbp_send a t l p d.
Proof.
  assert (Hbusy : sbp_state_eqb (state (sbp_send a t l p d)) SBP_IDLE = false).
  { unfold sbp_send.
    destruct (sbp_state_eqb (state d) SBP_IDLE) eqn:E; [reflexivity | exact E]. }
  split; [exact Hbusy|].
  unfold sbp_send at 1. now rewrite Hbusy.
Qed.

(** *** The header stage *)

Lemma recv_header_step (b : Z) (d : data) :
  state d = SBP_RECV_HEADER ->
  fst (ISR_USI_OVF (set_USIBR b d)) = recv_header (set_USIBR b d).
Proof.
  intros Hs. unfold ISR_USI_OVF. cbn [state set_USIBR]. now rewrite Hs.
Qed.

Lemma length_bytes (l h : Z) :
  is_u8 l -> is_u8 h -> u16 (Z.lor l (Z.shiftl h 8)) = l + 256 * h.
Proof.
  intros Hl Hh. apply Z.eqb_eq.
  pose (P := fun l h => u16 (Z.lor l (Z.shiftl h 8)) =? l + 256 * h).
  assert (Hall : forallb (fun l => forallb (P l) all_bytes) all_bytes = true)
    by (vm_compute; reflexivity).
  pose proof (Tiny485Facts.forall_bytes _ Hall l Hl) as Hrow.
  exact (Tiny485Facts.forall_bytes (P l) Hrow h Hh).
Qed.

(** The five bytes after the sync fill the header: type, length (low byte
    first: length = low + 256 * high), destination and source, in that
    order; the handler is then in the payload stage with index 6. *)
Theorem recv_header_fields (t l h dd ss : Z) (d : data) :
  state d = SBP_RECV_HEADER -> index d = 1 ->
  is_u8 l -> is_u8 h ->
  let d' := fst (receive [t; l; h; dd; ss] d) in
  type (frame d') = t /\
  len (frame d') = l + 256 * h /\
  dst (frame d') = dd /\
  src (frame d') = ss /\
  index d' = 6 /\
  state d' = SBP_RECV_PAYLOAD /\
  address d' = address d.
Proof.
  intros Hs Hi Hl Hh. cbv zeta.
  destruct d as [st ix sz fl ad fr cs br]. cbn in Hs, Hi. subst st ix.
  rewrite <- (length_bytes l h Hl Hh).
  repeat split.
Qed.

Lemma recv_header_fields_witness :
  let d' := fst (receive [0x10; 0x0A; 0x01; 0x02; 0x01] (synced_data 0x02)) in
  type (frame d') = 0x10 /\
  len (frame d') = 0x0A + 256 * 0x01 /\
  dst (frame d') = 0x02 /\
  src (frame d') = 0x01 /\
  index d' = 6 /\
  state d' = SBP_RECV_PAYLOAD /\
  address d' = address (synced_data 0x02).
Proof.
  apply (recv_header_fields 0x10 0x0A 0x01 0x02 0x01 (synced_data 0x02));
    try reflexivity; unfold is_u8; lia.
Defined.


Lemma recv_header_progress (b : Z) (d : data) :
  state d = SBP_RECV_HEADER ->
  state (fst (ISR_USI_OVF (set_USIBR b d))) = SBP_RECV_PAYLOAD \/
  (state (fst (ISR_USI_OVF (set_USIBR b d))) = SBP_RECV_HEADER /\
   0 <= index d <= 4 /\
   index (fst (ISR_USI_OVF (set_USIBR b d))) = index d + 1).
Proof.
  intros Hs. rewrite (recv_header_step b d Hs). unfold recv_header.
  cbn [index frame USIBR set_USIBR].
  destruct (Z.eqb_spec (index d) 0) as [E|_];
    [right; cbn; rewrite ?Hs, ?E; repeat split; (reflexivity || lia)|].
  destruct (Z.eqb_spec (index d) 1) as [E|_];
    [right; cbn; rewrite ?Hs, ?E; repeat split; (reflexivity || lia)|].
  destruct (Z.eqb_spec (index d) 2) as [E|_];
    [right; cbn; rewrite ?Hs, ?E; repeat split; (reflexivity || lia)|].
  destruct (Z.eqb_spec (index d) 3) as [E|_];
    [right; cbn; rewrite ?Hs, ?E; repeat split; (reflexivity || lia)|].
  destruct (Z.eqb_spec (index d) 4) as [E|_];
    [right; cbn; rewrite ?Hs, ?E; repeat split; (reflexivity || lia)|].
  destruct (index d =? 5); left; reflexivity.
Qed.

Lemma recv_payload_fixed (b : Z) (d : data) :
  state d = SBP_RECV_PAYLOAD ->
  state (fst (ISR_USI_OVF (set_USIBR b d))) = SBP_RECV_PAYLOAD.
Proof.
  intros Hs. unfold ISR_USI_OVF. cbn [state set_USIBR]. rewrite Hs. exact Hs.
Qed.

Lemma header_stage_bound (bs : list Z) : forall d : data,
  state d = SBP_RECV_PAYLOAD \/
  (state d = SBP_RECV_HEADER /\
   (index d < 0 \/ 6 - Z.of_nat (List.length bs) <= index d) /\
   (1 <= List.length bs)%nat) ->
  state (fst (receive bs d)) = SBP_RECV_PAYLOAD.
Proof.
  induction bs as [|b bs IH]; intros d H.
  - destruct H as [H | (_ & _ & H)]; [exact H | cbn in H; lia].
  - rewrite receive_cons. apply IH.
    destruct H as [Hp | (Hs & Hi & _)].
    + left. now apply recv_payload_fixed.
    + destruct (recv_header_progress b d Hs) as [Hp | (Hh & Hr & Hn)].
      * left. exact Hp.
      * right. cbn [List.length] in Hi. split; [exact Hh|]. rewrite Hn.
        split; [right; lia|].
        destruct bs; cbn [List.length] in *; lia.
Qed.

(** The header stage ends within six bytes: from the header stage, at any
    index, six or more received bytes leave the handler in the payload
    stage. *)
Theorem header_stage_ends (bs : list Z) (d : data) :
  state d = SBP_RECV_HEADER ->
  (6 <= List.length bs)%nat ->
  state (fst (receive bs d)) = SBP_RECV_PAYLOAD.
Proof.
  intros Hs Hlen. apply header_stage_bound. right.
  split; [exact Hs|]. split; lia.
Qed.

Lemma header_stage_ends_witness :
  state (fst (receive [0xAA; 0x10; 0x0A; 0x00; 0x02; 0x01]
                (set_index 0 (synced_data 0x02)))) = SBP_RECV_PAYLOAD.
Proof.
  apply (header_stage_ends [0xAA; 0x10; 0x0A; 0x00; 0x02; 0x01]
           (set_index 0 (synced_data 0x02))); [reflexivity | cbn; lia].
Defined.

(** The two length bytes the transmit case loads at index 2 and 3 are put
    back together by the receive case at index 2 and 3: the receiver's
    length is the sender's. *)
Theorem length_bytes_round_trip (tx rx : data) :
  is_u16 (len (frame tx)) ->
  state rx = SBP_RECV_HEADER -> index rx = 2 ->
  len (frame (fst (receive
         [USIBR (xmit_header (set_index 2 tx));
          USIBR (xmit_header (set_index 3 tx))] rx)))
  = len (frame tx).
Proof.
  intros [Hlo Hhi] Hs Hi.
  destruct rx as [st ix sz fl ad fr cs br]. cbn in Hs, Hi. subst st ix.
  change (len (frame (fst (receive
            [USIBR (xmit_header (set_index 2 tx));
             USIBR (xmit_header (set_index 3 tx))]
            (mkData SBP_RECV_HEADER 2 sz fl ad fr cs br)))))
    with (u16 (Z.lor (Z.land (len (frame tx)) 0xFF)
                 (Z.shiftl (Z.land (Z.shiftr (len (frame tx)) 8) 0xFF) 8))).
  set (L := len (frame tx)) in *.
  change 0xFF with (Z.ones 8).
  rewrite !Z.land_ones, Z.shiftr_div_pow2 by lia.
  change (2 ^ 8) with 256.
  assert (Hq : 0 <= L / 256 < 256).
  { split; [apply Z.div_pos; lia | apply Z.div_lt_upper_bound; lia]. }
  rewrite (Z.mod_small (L / 256)) by lia.
  rewrite length_bytes.
  - symmetry. rewrite Z.add_comm. apply Z.div_mod. lia.
  - unfold is_u8. apply Z.mod_pos_bound. lia.
  - exact Hq.
Qed.

Lemma length_bytes_round_trip_witness :
  len (frame (fst (receive
         [USIBR (xmit_header (set_index 2 past_header));
          USIBR (xmit_header (set_index 3 past_header))]
         (set_index 2 (synced_data 0x02)))))
  = len (frame past_header).
Proof.
  apply (length_bytes_round_trip past_header (set_index 2 (synced_data 0x02)));
    [unfold is_u16; cbn; lia | reflexivity | reflexivity].
Defined.

(** *** The timer handler *)

Lemma shift_in_bit_01 (buf din : Z) :
  shift_in_bit buf din = 0 \/ shift_in_bit buf din = 1.
Proof.
  unfold shift_in_bit. destruct (Z.lor (Z.shiftl buf 1) din =? 0); auto.
Qed.

Lemma shift_in_bit_no_match (buf din : Z) :
  (shift_in_bit buf din =? SBP_BYTE_SYNC) = false /\
  (shift_in_bit buf din =? SBP_BYTE_ESCAPE) = false.
Proof.
  destruct (shift_in_bit_01 buf din) as [E | E]; rewrite E; split; reflexivity.
Qed.

Lemma tim0_keeps (din buf : Z) (d : data) :
  state (fst (fst (ISR_TIM0 din (d, buf)))) = state d /\
  index (fst (fst (ISR_TIM0 din (d, buf)))) = index d /\
  address (fst (fst (ISR_TIM0 din (d, buf)))) = address d /\
  frame (fst (fst (ISR_TIM0 din (d, buf)))) = frame d /\
  snd (ISR_TIM0 din (d, buf)) = [] /\
  (snd (fst (ISR_TIM0 din (d, buf))) = buf \/
   snd (fst (ISR_TIM0 din (d, buf))) = 0 \/
   snd (fst (ISR_TIM0 din (d, buf))) = 1).
Proof.
  unfold ISR_TIM0.
  destruct (shift_in_bit_no_match buf din) as [Hsync Hesc].
  destruct (state d) eqn:Hs; cbn [fst snd]; try (repeat split; auto; fail).
  - rewrite Hsync, Hesc.
    destruct (negb (Z.land (flags d) SBP_FLAG_ESCAPE =? 0));
      cbn [fst snd state index address frame set_flags];
      repeat split; auto; right; apply shift_in_bit_01.
  - rewrite Hsync. cbn [fst snd]. repeat split; auto.
    right. apply shift_in_bit_01.
Qed.

(** A timer tick never detects the sync byte: whatever the pin sample and
    the bit buffer, the handler leaves the state, the index and the frame as
    they are and calls no hardware helper, because the statement that
    shifts the sample in stores 0 or 1. *)
Theorem tick_never_syncs (din buf : Z) (d : data) :
  state (fst (fst (ISR_TIM0 din (d, buf)))) = state d /\
  index (fst (fst (ISR_TIM0 din (d, buf)))) = index d /\
  frame (fst (fst (ISR_TIM0 din (d, buf)))) = frame d /\
  snd (ISR_TIM0 din (d, buf)) = [].
Proof.
  destruct (tim0_keeps din buf d) as (H1 & H2 & _ & H4 & H5 & _). auto.
Qed.

(** *** What no event changes *)

Lemma overflow_keeps_address (d : data) :
  address (fst (ISR_USI_OVF d)) = address d.
Proof.
  unfold ISR_USI_OVF, xmit_header, recv_header.
  destruct (state d); cbn [fst]; try reflexivity;
    repeat match goal with
           | |- context [if ?c then _ else _] => destruct c
           end; reflexivity.
Qed.

Lemma send_keeps_address (a t l p : Z) (d : data) :
  address (sbp_send a t l p d) = address d.
Proof.
  unfold sbp_send. destruct (sbp_state_eqb (state d) SBP_IDLE); reflexivity.
Qed.

Lemma step_keeps_address (e : sbp_event) (db : data * Z) :
  address (fst (sbp_step db e)) = address (fst db).
Proof.
  destruct db as [d buf], e as [din | b | a t l p]; cbn [sbp_step fst snd].
  - apply tim0_keeps.
  - rewrite overflow_keeps_address. reflexivity.
  - apply send_keeps_address.
Qed.

(** The node address is written by sbp_init only: no sequence of timer
    ticks, USI overflows and sbp_send calls changes it. *)
Theorem address_is_fixed (es : list sbp_event) : forall db : data * Z,
  address (fst (sbp_run es db)) = address (fst db).
Proof.
  unfold sbp_run.
  induction es as [|e es IH]; intros db; [reflexivity|].
  cbn [fold_left]. rewrite IH. apply step_keeps_address.
Qed.

Lemma step_keeps_init (e : sbp_event) (db : data * Z) :
  state (fst db) = SBP_INIT -> state (fst (sbp_step db e)) = SBP_INIT.
Proof.
  intros Hs. destruct db as [d buf], e as [din | b | a t l p];
    cbn [sbp_step fst snd] in *.
  - destruct (tim0_keeps din buf d) as (H & _). now rewrite H.
  - unfold ISR_USI_OVF. cbn [state set_USIBR]. rewrite Hs. exact Hs.
  - unfold sbp_send. rewrite Hs. exact Hs.
Qed.

(** After sbp_init the library never becomes idle: every sequence of timer
    ticks, USI overflows and sbp_send calls leaves it in the init state, so
    sbp_idle stays false and no sbp_send ever takes effect. *)
Theorem never_idle_after_init (es : list sbp_event) (addr buf : Z) (d : data) :
  state (fst (sbp_run es (sbp_init addr d, buf))) = SBP_INIT /\
  sbp_idle (fst (sbp_run es (sbp_init addr d, buf))) = false.
Proof.
  assert (H : forall db, state (fst db) = SBP_INIT ->
                         state (fst (sbp_run es db)) = SBP_INIT).
  { unfold sbp_run. induction es as [|e es IH]; intros db Hs; [exact Hs|].
    cbn [fold_left]. apply IH. now apply step_keeps_init. }
  assert (Hinit : state (fst (sbp_run es (sbp_init addr d, buf))) = SBP_INIT)
    by (apply H; reflexivity).
  split; [exact Hinit|]. unfold sbp_idle. now rewrite Hinit.
Qed.

(** *** When a transmission ends *)

Lemma overflows_S (n : nat) (d : data) :
  fst (overflows (S n) d) = fst (overflows n (fst (ISR_USI_OVF d))).
Proof.
  cbn [overflows]. destruct (ISR_USI_OVF d) as [d1 c1].
  cbn [fst]. destruct (overflows n d1) as [d2 c2]. reflexivity.
Qed.

Lemma xmit_header_stays (d : data) :
  state d = SBP_XMIT_HEADER -> 0 <= index d <= 5 ->
  state (fst (ISR_USI_OVF d)) = SBP_XMIT_HEADER.
Proof.
  intros Hs Hi. unfold ISR_USI_OVF, xmit_header. rewrite Hs. cbn [fst].
  assert (C : index d = 0 \/ index d = 1 \/ index d = 2 \/ index d = 3 \/
              index d = 4 \/ index d = 5) by lia.
  destruct C as [E | [E | [E | [E | [E | E]]]]]; rewrite E; exact Hs.
Qed.

Lemma xmit_header_stuck (n : nat) : forall d : data,
  state d = SBP_XMIT_HEADER -> 0 <= index d <= 5 ->
  state (fst (overflows n d)) = SBP_XMIT_HEADER.
Proof.
  induction n as [|n IH]; intros d Hs Hi; [exact Hs|].
  rewrite overflows_S. apply IH.
  - now apply xmit_header_stays.
  - rewrite xmit_keeps_index by auto. exact Hi.
Qed.

Lemma xmit_header_leaves (d : data) :
  state d = SBP_XMIT_HEADER -> ~ 0 <= index d <= 5 ->
  ISR_USI_OVF d = (set_state SBP_XMIT_PAYLOAD d, []).
Proof.
  intros Hs Hi. unfold ISR_USI_OVF, xmit_header. rewrite Hs.
  repeat match goal with
         | |- context [index d =? ?k] =>
             destruct (Z.eqb_spec (index d) k); [lia|]
         end.
  reflexivity.
Qed.

Lemma xmit_payload_stuck (n : nat) : forall d : data,
  state d = SBP_XMIT_PAYLOAD ->
  index d <> u16 (size d + SBP_HEADER_LENGTH) ->
  state (fst (overflows n d)) = SBP_XMIT_PAYLOAD.
Proof.
  induction n as [|n IH]; intros d Hs Hi; [exact Hs|].
  rewrite overflows_S.
  assert (E : ISR_USI_OVF d = (d, [])).
  { unfold ISR_USI_OVF. rewrite Hs.
    destruct (Z.eqb_spec (index d) (u16 (size d + SBP_HEADER_LENGTH)));
      [contradiction | reflexivity]. }
  rewrite E. cbn [fst]. now apply IH.
Qed.

Lemma xmit_finishes (d : data) :
  state d = SBP_XMIT_HEADER -> ~ 0 <= index d <= 5 ->
  index d = u16 (size d + SBP_HEADER_LENGTH) ->
  overflows 3 d
  = (set_state SBP_IDLE (set_USIBR (data_checksum d) d),
     [disable_usi; enable_tim0_int]).
Proof.
  intros Hs Hi Hsz. cbn [overflows].
  rewrite (xmit_header_leaves d Hs Hi).
  unfold ISR_USI_OVF at 1. cbn [state index size set_state].
  rewrite Hsz, Z.eqb_refl.
  destruct d as [st ix sz fl ad fr cs br]. reflexivity.
Qed.

(** A transmission in the header stage comes to an end exactly when its
    index is already past the header and equals size + 6.  It then ends
    with the third overflow interrupt, which loads the checksum byte, goes
    idle and calls disable_usi and enable_tim0_int; nothing but the
    checksum is loaded. *)
Theorem xmit_ends_iff (d : data) :
  state d = SBP_XMIT_HEADER ->
  ((exists n, state (fst (overflows n d)) = SBP_IDLE) <->
   (~ 0 <= index d <= 5 /\ index d = u16 (size d + SBP_HEADER_LENGTH))) /\
  (~ 0 <= index d <= 5 -> index d = u16 (size d + SBP_HEADER_LENGTH) ->
   overflows 3 d
   = (set_state SBP_IDLE (set_USIBR (data_checksum d) d),
      [disable_usi; enable_tim0_int])).
Proof.
  intros Hs. split; [|apply xmit_finishes; exact Hs].
  split.
  - intros [n Hn].
    destruct (Z_le_dec 0 (index d)) as [H0|H0];
      [destruct (Z_le_dec (index d) 5) as [H5|H5]|].
    + rewrite xmit_header_stuck in Hn by (auto; lia). discriminate.
    + split; [lia|].
      destruct (Z.eq_dec (index d) (u16 (size d + SBP_HEADER_LENGTH)))
        as [E|E]; [exact E|].
      destruct n as [|n]; [cbn [overflows fst] in Hn; rewrite Hs in Hn; discriminate|].
      rewrite overflows_S, (xmit_header_leaves d Hs) in Hn by lia.
      rewrite xmit_payload_stuck in Hn by auto. discriminate.
    + split; [lia|].
      destruct (Z.eq_dec (index d) (u16 (size d + SBP_HEADER_LENGTH)))
        as [E|E]; [exact E|].
      destruct n as [|n]; [cbn [overflows fst] in Hn; rewrite Hs in Hn; discriminate|].
      rewrite overflows_S, (xmit_header_leaves d Hs) in Hn by lia.
      rewrite xmit_payload_stuck in Hn by auto. discriminate.
  - intros [Hi Hsz]. exists 3%nat.
    rewrite (xmit_finishes d Hs Hi Hsz). reflexivity.
Qed.

Lemma xmit_ends_iff_witness :
  ((exists n, state (fst (overflows n past_header)) = SBP_IDLE) <->
   (~ 0 <= index past_header <= 5 /\
    index past_header = u16 (size past_header + SBP_HEADER_LENGTH))) /\
  (~ 0 <= index past_header <= 5 ->
   index past_header = u16 (size past_header + SBP_HEADER_LENGTH) ->
   overflows 3 past_header
   = (set_state SBP_IDLE (set_USIBR (data_checksum past_header) past_header),
      [disable_usi; enable_tim0_int])).
Proof.
  apply (xmit_ends_iff past_header). reflexivity.
Defined.

End SbpFacts.
